(** * ansible-vmware: reconcilers and fact collection of the ESXi modules

    A shallow embedding of the four modules of the repository

    - [vmware_service.py]           (service run-state and policy),
    - [vmware_advanced_setting.py]  (advanced options),
    - [vmware_datetime_config.py]   (NTP servers, ntpd, timezone),
    - [vmware_esxi_facts.py]        (read-only fact collection),

    together with the properties their specification states about them.

    The modules are Python 2 programs driving a remote host through the
    pyVmomi SDK.  The host is modelled as a record that the SDK calls read
    and update; every SDK call a module issues is also appended to a log, so
    that "no call was issued" and "exactly one call was issued" are
    statements about that log. *)

From Stdlib Require Import ZArith Ascii String List Lia.
From stdpp Require Import base tactics option list strings gmap fin_maps.

Local Open Scope string_scope.
Local Open Scope Z_scope.

(** ** Python values and the built-ins the modules use *)

Module Py.

(** The run-time values an advanced option can hold.  [type(v).__name__]
    is what [apply_setting] dispatches on. *)
Inductive value :=
  | Long (z : Z)
  | Int (z : Z)
  | Str (s : string)
  | Bool (b : bool)
  | Float (repr : string)
  | NoneV.

Definition type_name (v : value) : string :=
  match v with
  | Long _ => "long"
  | Int _ => "int"
  | Str _ => "str"
  | Bool _ => "bool"
  | Float _ => "float"
  | NoneV => "NoneType"
  end.

(** Python's [==]: numbers (among which the booleans, [True == 1]) compare
    by value, strings with strings, and values of unrelated types are
    never equal.  Floats are kept opaque: only their textual form is
    compared. *)
Definition num_of (v : value) : option Z :=
  match v with
  | Long z | Int z => Some z
  | Bool b => Some (if b then 1 else 0)
  | _ => None
  end.

Definition eq (a b : value) : bool :=
  match num_of a, num_of b with
  | Some x, Some y => Z.eqb x y
  | _, _ =>
      match a, b with
      | Str s, Str t => bool_decide (s = t)
      | Float s, Float t => bool_decide (s = t)
      | NoneV, NoneV => true
      | _, _ => false
      end
  end.

Definition ne (a b : value) : bool := negb (eq a b).

(** [bool(s)] for a string: only the empty string is false. *)
Definition bool_of_str (s : string) : bool :=
  match s with
  | EmptyString => false
  | String _ _ => true
  end.

(** *** [long(s)] on a byte string, as CPython 2 reads it in base 10:
    white space, an optional sign, white space, at least one digit, an
    optional [L], white space, and then the end of the string.  The reader
    works on the C string, which ends at the first NUL. *)

Definition is_space (c : ascii) : bool :=
  let n := nat_of_ascii c in
  (Nat.eqb n 32 || (Nat.leb 9 n && Nat.leb n 13))%bool.

Definition digit (c : ascii) : option Z :=
  let n := nat_of_ascii c in
  if (Nat.leb 48 n && Nat.leb n 57)%bool then Some (Z.of_nat n - 48) else None.

Fixpoint lstrip (l : list ascii) : list ascii :=
  match l with
  | c :: l' => if is_space c then lstrip l' else l
  | [] => []
  end.

(** The bytes before the first NUL. *)
Fixpoint c_string (l : list ascii) : list ascii :=
  match l with
  | c :: l' => if Nat.eqb (nat_of_ascii c) 0 then [] else c :: c_string l'
  | [] => []
  end.

(** The leading digits, read in base 10: their value, their number, and
    what follows them. *)
Fixpoint scan_digits (acc : Z) (n : nat) (l : list ascii) : Z * nat * list ascii :=
  match l with
  | c :: l' =>
      match digit c with
      | Some d => scan_digits (10 * acc + d) (S n) l'
      | None => (acc, n, l)
      end
  | [] => (acc, n, [])
  end.

Definition skip_sign (l : list ascii) : Z * list ascii :=
  match l with
  | "+"%char :: r => (1, r)
  | "-"%char :: r => (-1, r)
  | _ => (1, l)
  end.

Definition skip_L (l : list ascii) : list ascii :=
  match l with
  | c :: r => if (Ascii.eqb c "L" || Ascii.eqb c "l")%bool then r else l
  | [] => []
  end.

Definition parse_long (l : list ascii) : option Z :=
  let '(sign, l) := skip_sign (lstrip l) in
  let '(z, n, rest) := scan_digits 0 0 (lstrip l) in
  if Nat.eqb n 0 then None
  else
    match lstrip (skip_L rest) with
    | [] => Some (sign * z)
    | _ => None
    end.

(** A literal is accepted when the reader reaches the end of the string,
    not only the first NUL. *)
Definition long (s : string) : option Z :=
  let bytes := list_ascii_of_string s in
  match parse_long (c_string bytes) with
  | Some z => if Nat.eqb (length (c_string bytes)) (length bytes) then Some z else None
  | None => None
  end.

(** *** [repr(s)] of a byte string: single quotes, unless the string has a
    single quote and no double quote; backslash and the quote escaped; tab,
    newline and return by letter; the other bytes outside the printable
    range in hexadecimal. *)

Definition double_quote : ascii := ascii_of_nat 34.

Definition backslash : ascii := ascii_of_nat 92.

Definition hex_digit (n : nat) : ascii :=
  if Nat.ltb n 10 then ascii_of_nat (48 + n) else ascii_of_nat (87 + n).

Definition repr_char (quote c : ascii) : list ascii :=
  let n := nat_of_ascii c in
  if (Ascii.eqb c quote || Ascii.eqb c backslash)%bool then [backslash; c]
  else if Nat.eqb n 9 then [backslash; "t"%char]
  else if Nat.eqb n 10 then [backslash; "n"%char]
  else if Nat.eqb n 13 then [backslash; "r"%char]
  else if (Nat.ltb n 32 || Nat.leb 127 n)%bool
       then [backslash; "x"%char; hex_digit (Nat.div n 16); hex_digit (Nat.modulo n 16)]
  else [c].

Definition repr_bytes (l : list ascii) : list ascii :=
  let quote :=
    if (existsb (Ascii.eqb "'"%char) l && negb (existsb (Ascii.eqb double_quote) l))%bool
    then double_quote else "'"%char in
  (quote :: flat_map (repr_char quote) l ++ [quote])%list.

Definition repr (s : string) : string :=
  string_of_list_ascii (repr_bytes (list_ascii_of_string s)).

(** The message of the [ValueError] that [long(s)] raises on a string it
    does not accept: a literal that reads well up to a NUL is refused for the
    NUL; any other is quoted, its first 200 bytes at most, by [repr]. *)
Definition long_error (s : string) : string :=
  let text := c_string (list_ascii_of_string s) in
  match parse_long text with
  | Some _ => "null byte in argument for long()"
  | None =>
      "invalid literal for long() with base 10: "
      +:+ string_of_list_ascii (repr_bytes (firstn 200 text))
  end.

(** *** The regular-expression substitution and the character
    replacement of [main]: the pattern is a slash anchored at the start of
    the string followed by a capturing group of any characters but the
    newline; the replacement is that group. *)

Definition newline : ascii := ascii_of_nat 10.

(** Longest prefix without a newline (the greedy group, no DOTALL flag)
    and the rest. *)
Fixpoint dot_star (s : string) : string * string :=
  match s with
  | EmptyString => (EmptyString, EmptyString)
  | String c s' =>
      if Ascii.eqb c newline then (EmptyString, s)
      else let '(g, rest) := dot_star s' in (String c g, rest)
  end.

(** The pattern is anchored at the start of the string, so it matches at
    most once: a leading slash followed by group 1.  The match is replaced
    by group 1 and the unmatched tail is kept. *)
Definition sub_leading_slash (s : string) : string :=
  match s with
  | String "/"%char s' => let '(group1, rest) := dot_star s' in group1 +:+ rest
  | _ => s
  end.

Fixpoint replace_char (old new : ascii) (s : string) : string :=
  match s with
  | EmptyString => EmptyString
  | String c s' =>
      String (if Ascii.eqb c old then new else c) (replace_char old new s')
  end.

End Py.

(** ** The SDK: host state, calls, exceptions *)

Module HostService.
(** An entry of [serviceSystem.serviceInfo.service]. *)
Record t := mk { key : string; running : bool; policy : string }.
End HostService.

Module OptionValue.
(** An entry of the list [QueryOptions] returns and [UpdateOptions] takes. *)
Record t := mk { key : string; value : Py.value }.
End OptionValue.

Record HostNtpConfig := { server : list string }.

(** The data object [UpdateDateTimeConfig] takes; a field that the
    constructor call leaves out is unset. *)
Record HostDateTimeConfig := {
  ntpConfig : option HostNtpConfig;
  timeZone : option string
}.

(** The part of the host that the three mutating modules read and write,
    named after the attribute paths of the SDK. *)
Record HostSystem := {
  advancedOption : gmap string Py.value;       (* the option manager's leaves *)
  serviceInfo_service : list HostService.t;    (* serviceSystem.serviceInfo.service *)
  dateTimeInfo_ntpConfig_server : list string; (* dateTimeSystem.dateTimeInfo.ntpConfig.server *)
  dateTimeInfo_timeZone_name : string;         (* dateTimeSystem.dateTimeInfo.timeZone.name *)
  availableTimeZones : list string             (* names of QueryAvailableTimeZones() *)
}.

(** The remote calls, as entries of the log. *)
Inductive Call :=
  | call_RestartService (key : string)
  | call_StartService (key : string)
  | call_StopService (key : string)
  | call_UpdateServicePolicy (key policy : string)
  | call_QueryOptions (name : string)
  | call_UpdateOptions (changedValue : list OptionValue.t)
  | call_QueryAvailableTimeZones
  | call_UpdateDateTimeConfig (config : HostDateTimeConfig).

(** The calls that change the host; the two queries do not. *)
Definition is_mutation (c : Call) : bool :=
  match c with
  | call_QueryOptions _ | call_QueryAvailableTimeZones => false
  | _ => true
  end.

Definition mutations (log : list Call) : list Call :=
  List.filter is_mutation log.

Definition is_run_state_call (c : Call) : bool :=
  match c with
  | call_RestartService _ | call_StartService _ | call_StopService _ => true
  | _ => false
  end.

Definition run_state_calls (log : list Call) : list Call :=
  List.filter is_run_state_call log.

(** What ends a module run early.  [module.fail_json] reports and exits the
    process ([SystemExit], which is not an [Exception]); the SDK raises
    faults; everything else is an ordinary Python exception with its class
    and its message. *)
Inductive exn :=
  | SystemExit (msg : string)
  | Fault (msg : string)
  | Exception (cls msg : string).

Record World := { host : HostSystem; calls : list Call }.

(** State and exceptions: a computation returns a value or raises, and in
    both cases leaves the state it reached (nothing is rolled back). *)
Definition M (S A : Type) : Type := S -> (exn + A) * S.

Definition ret {S A} (a : A) : M S A := fun s => (inr a, s).

Definition raise {S A} (e : exn) : M S A := fun s => (inl e, s).

Definition bind {S A B} (m : M S A) (k : A -> M S B) : M S B :=
  fun s =>
    match m s with
    | (inr a, s') => k a s'
    | (inl e, s') => (inl e, s')
    end.

Definition gets {S A} (f : S -> A) : M S A := fun s => (inr (f s), s).

Definition modify {S} (f : S -> S) : M S unit := fun s => (inr tt, f s).

Declare Scope py_scope.
Delimit Scope py_scope with py.
Notation "x <- m ;; k" := (bind m (fun x => k))
  (at level 100, m at next level, right associativity) : py_scope.
Notation "m ;; k" := (bind m (fun _ => k))
  (at level 100, right associativity) : py_scope.
Local Open Scope py_scope.

(** [l[0]] *)
Definition index0 {S A} (l : list A) : M S A :=
  match l with
  | x :: _ => ret x
  | [] => raise (Exception "IndexError" "list index out of range")
  end.

Definition fail_json {S A} (msg : string) : M S A := raise (SystemExit msg).

(** *** The host's side of each call *)

(** The host applies a run-state or policy change to the service of that
    key, and leaves the others alone. *)
Definition update_service (key : string) (f : HostService.t -> HostService.t)
    (h : HostSystem) : HostSystem :=
  {| advancedOption := advancedOption h;
     serviceInfo_service :=
       map (fun s => if bool_decide (HostService.key s = key) then f s else s)
           (serviceInfo_service h);
     dateTimeInfo_ntpConfig_server := dateTimeInfo_ntpConfig_server h;
     dateTimeInfo_timeZone_name := dateTimeInfo_timeZone_name h;
     availableTimeZones := availableTimeZones h |}.

Definition set_running (key : string) (r : bool) : HostSystem -> HostSystem :=
  update_service key
    (fun s => HostService.mk (HostService.key s) r (HostService.policy s)).

Definition set_policy (key policy : string) : HostSystem -> HostSystem :=
  update_service key
    (fun s => HostService.mk (HostService.key s) (HostService.running s) policy).

Definition set_options (changedValue : list OptionValue.t) (h : HostSystem) : HostSystem :=
  {| advancedOption :=
       fold_left (fun m o => <[OptionValue.key o := OptionValue.value o]> m)
                 changedValue (advancedOption h);
     serviceInfo_service := serviceInfo_service h;
     dateTimeInfo_ntpConfig_server := dateTimeInfo_ntpConfig_server h;
     dateTimeInfo_timeZone_name := dateTimeInfo_timeZone_name h;
     availableTimeZones := availableTimeZones h |}.

Definition set_date_time (config : HostDateTimeConfig) (h : HostSystem) : HostSystem :=
  {| advancedOption := advancedOption h;
     serviceInfo_service := serviceInfo_service h;
     dateTimeInfo_ntpConfig_server :=
       match ntpConfig config with
       | Some c => server c
       | None => dateTimeInfo_ntpConfig_server h
       end;
     dateTimeInfo_timeZone_name :=
       match timeZone config with
       | Some tz => tz
       | None => dateTimeInfo_timeZone_name h
       end;
     availableTimeZones := availableTimeZones h |}.

(** A call is logged and, for a mutation, applied to the host. *)
Definition issue (c : Call) (f : HostSystem -> HostSystem) : M World unit :=
  modify (fun w => {| host := f (host w); calls := calls w ++ [c] |}).

Definition RestartService (key : string) : M World unit :=
  issue (call_RestartService key) (set_running key true).

Definition StartService (key : string) : M World unit :=
  issue (call_StartService key) (set_running key true).

Definition StopService (key : string) : M World unit :=
  issue (call_StopService key) (set_running key false).

Definition UpdateServicePolicy (key policy : string) : M World unit :=
  issue (call_UpdateServicePolicy key policy) (set_policy key policy).

(** The option manager is addressed at a leaf: the answer is the one option
    of that key, and a key the host does not have is an [InvalidName]
    fault. *)
Definition QueryOptions (name : string) : M World (list OptionValue.t) :=
  issue (call_QueryOptions name) id;;
  o <- gets (fun w => advancedOption (host w) !! name);;
  match o with
  | Some v => ret [OptionValue.mk name v]
  | None => raise (Fault "InvalidName")
  end.

Definition UpdateOptions (changedValue : list OptionValue.t) : M World unit :=
  issue (call_UpdateOptions changedValue) (set_options changedValue).

Definition QueryAvailableTimeZones : M World (list string) :=
  issue call_QueryAvailableTimeZones id;;
  gets (fun w => availableTimeZones (host w)).

Definition UpdateDateTimeConfig (config : HostDateTimeConfig) : M World unit :=
  issue (call_UpdateDateTimeConfig config) (set_date_time config).

(** *** The end of a run: what [main] reports *)

Inductive Report :=
  | exit_json (changed : bool)
  | failed (msg : string).

(** The [try] of every [main]: the result goes to [exit_json]; a fault or
    an exception is reported with its message; the exit of a [fail_json]
    inside the body passes the handlers, its report already made. *)
Definition run_module (body : M World bool) (w : World) : Report * World :=
  match body w with
  | (inr changed, w') => (exit_json changed, w')
  | (inl (SystemExit msg), w') => (failed msg, w')
  | (inl (Fault msg), w') => (failed msg, w')
  | (inl (Exception _ msg), w') => (failed msg, w')
  end.

(** A run starts on a host with an empty log. *)
Definition on_host (h : HostSystem) : World := {| host := h; calls := [] |}.

(** ** vmware_service.py *)

Module vmware_service.

Definition manage_service (name state policy : string) : M World bool :=
  let changed := false in
  services <- gets (fun w => serviceInfo_service (host w));;
  let service_lst := filter (fun s => HostService.key s = name) services in
  (if (length service_lst <? 1)%nat
   then fail_json ("Could not find service " +:+ name +:+ " to manage")
   else ret tt);;
  service <- index0 service_lst;;
  changed <-
    (if bool_decide (state = "restarted") then
       RestartService name;; ret true
     else if bool_decide (state = "running") && negb (HostService.running service) then
       StartService name;; ret true
     else if bool_decide (state = "stopped") && HostService.running service then
       StopService name;; ret true
     else ret changed);;
  changed <-
    (if bool_decide (policy ≠ HostService.policy service) then
       UpdateServicePolicy name policy;; ret true
     else ret changed);;
  ret changed.

Definition main (name state policy : string) (host_system : HostSystem)
  : Report * World :=
  run_module (manage_service name state policy) (on_host host_system).

End vmware_service.

(** ** vmware_advanced_setting.py *)

Module vmware_advanced_setting.

(** [long(value)], raising [ValueError] on a string that is no literal. *)
Definition long {S} (value : string) : M S Z :=
  match Py.long value with
  | Some n => ret n
  | None => raise (Exception "ValueError" (Py.long_error value))
  end.

(** [options[0].value = v] *)
Definition set_value0 (options : list OptionValue.t) (v : Py.value)
  : list OptionValue.t :=
  match options with
  | o :: rest => OptionValue.mk (OptionValue.key o) v :: rest
  | [] => []
  end.

Definition apply_setting (option value : string) : M World bool :=
  let changed := false in
  options <- QueryOptions option;;
  options_0 <- index0 options;;
  let value_type := Py.type_name (OptionValue.value options_0) in
  if bool_decide (value_type = "long") then
    n <- long value;;
    if Py.ne (OptionValue.value options_0) (Py.Long n) then
      v <- long value;;
      let options := set_value0 options (Py.Long v) in
      UpdateOptions options;;
      ret true
    else ret changed
  else if bool_decide (value_type = "str") then
    if Py.ne (OptionValue.value options_0) (Py.Str value) then
      let options := set_value0 options (Py.Str value) in
      UpdateOptions options;;
      ret true
    else ret changed
  else if bool_decide (value_type = "bool") then
    if Py.ne (OptionValue.value options_0) (Py.Str value) then
      let options := set_value0 options (Py.Bool (Py.bool_of_str value)) in
      UpdateOptions options;;
      ret true
    else ret changed
  else
    fail_json ("Unhandled value type " +:+ value_type).

(** The esxcli-style path becomes an API key: the first slash is removed
    and all the others become dots. *)
Definition normalize_option (option : string) : string :=
  Py.replace_char "/" "." (Py.sub_leading_slash option).

Definition main (option value : string) (host_system : HostSystem)
  : Report * World :=
  let option := normalize_option option in
  run_module (apply_setting option value) (on_host host_system).

End vmware_advanced_setting.

(** ** vmware_datetime_config.py *)

Module vmware_datetime_config.

Section Namespace.

(** The names the SDK's [vim] namespace resolves; looking up any other
    name is an [AttributeError]. *)
Variable vim : list string.

Definition vim_getattr (name : string) : M World unit :=
  if bool_decide (name ∈ vim) then ret tt
  else raise (Exception "AttributeError" name).

(** Truth value of the [timezone] parameter: [None] and the empty
    string are false. *)
Definition requested (timezone : option string) : option string :=
  match timezone with
  | Some tz => if Py.bool_of_str tz then Some tz else None
  | None => None
  end.

Definition configure_datetime (ntp_servers : list string) (ntpd_state : string)
    (timezone : option string) : M World bool :=
  let changed := false in
  (* Configure NTP servers *)
  current_ntp_servers <- gets (fun w => dateTimeInfo_ntpConfig_server (host w));;
  changed <-
    (if bool_decide (current_ntp_servers ≠ ntp_servers) then
       vim_getattr "HostNtpConfig";;
       let ntpConfig_ := {| server := ntp_servers |} in
       vim_getattr "HostDateTimeConfig";;
       let dateConfig := {| ntpConfig := Some ntpConfig_; timeZone := None |} in
       UpdateDateTimeConfig dateConfig;;
       ret true
     else ret changed);;
  (* Manage the NTP service *)
  services <- gets (fun w => serviceInfo_service (host w));;
  ntpd_service <- index0 (filter (fun s => HostService.key s = "ntpd") services);;
  changed <-
    (if bool_decide (ntpd_state = "restarted") then
       RestartService "ntpd";; ret true
     else if bool_decide (ntpd_state = "running")
             && negb (HostService.running ntpd_service) then
       StartService "ntpd";; ret true
     else if bool_decide (ntpd_state = "stopped")
             && HostService.running ntpd_service then
       StopService "ntpd";; ret true
     else ret changed);;
  (* Configure the timezone *)
  current_timezone <- gets (fun w => dateTimeInfo_timeZone_name (host w));;
  match requested timezone with
  | Some tz =>
      if bool_decide (current_timezone ≠ tz) then
        timezones <- QueryAvailableTimeZones;;
        (if (length (filter (fun t => t = tz) timezones) <? 1)%nat
         then fail_json "Invalid timezone requested"
         else ret tt);;
        vim_getattr "HostDataTimeConfig";;
        let dateConfig := {| ntpConfig := None; timeZone := Some tz |} in
        UpdateDateTimeConfig dateConfig;;
        ret true
      else ret changed
  | None => ret changed
  end.

Definition main (ntp_servers : list string) (ntpd_state : string)
    (timezone : option string) (host_system : HostSystem) : Report * World :=
  run_module (configure_datetime ntp_servers ntpd_state timezone)
             (on_host host_system).

End Namespace.

(** The data-object types of the date-time API as pyVmomi names them. *)
Definition pyVmomi_vim : list string := ["HostNtpConfig"; "HostDateTimeConfig"].

End vmware_datetime_config.

(** ** vmware_esxi_facts.py *)

Module vmware_esxi_facts.

(** What a fact document holds: scalars, lists and dictionaries keyed by
    strings. *)
#[warnings="-register-all"]
Inductive fact :=
  | FNone
  | FStr (s : string)
  | FInt (z : Z)
  | FBool (b : bool)
  | FList (l : list fact)
  | FDict (d : gmap string fact).

Abbreviation dict := (gmap string fact).

(** A data object of the SDK whose attributes are only read by name
    ([getattr]); an attribute the host left unset reads as [None]. *)
Definition DataObject := string -> fact.

Definition getattr (o : DataObject) (attr : string) : fact := o attr.

(** [for attr in attrs: d[attr] = f(getattr(o, attr))] *)
Definition copy_attrs (f : fact -> fact) (o : DataObject) (attrs : list string)
    (d : dict) : dict :=
  fold_left (fun d attr => <[attr := f (getattr o attr)]> d) attrs d.

(** *** The network objects ([vim.host.NetworkInfo]) *)

(** The link speed of a physical NIC is unset on some machines. *)
Module PhysicalNic.
Record LinkSpeedDuplex := { speedMb : fact; duplex : fact }.
Record t := {
  device : string;
  driver : fact;
  mac : fact;
  pci : fact;
  linkSpeed : option LinkSpeedDuplex
}.
End PhysicalNic.

Module IpV6Address.
Record t := { ipAddress : fact; prefixLength : fact }.
End IpV6Address.

Module IpV6Config.
Record t := {
  ipV6Address : list IpV6Address.t;
  autoConfigurationEnabled : fact;
  dhcpV6Enabled : fact
}.
End IpV6Config.

Module IpConfig.
Record t := {
  ipAddress : fact;
  subnetMask : fact;
  dhcp : fact;
  ipV6Config : option IpV6Config.t
}.
End IpConfig.

(** The IP configuration of a virtual NIC's specification is optional in the
    SDK. *)
Module VirtualNic.
Record Spec := { mac : fact; mtu : fact; ip : option IpConfig.t }.
Record t := { device : string; portgroup : fact; spec : Spec }.
End VirtualNic.

Module PortGroup.
Record Spec := { name : fact; vlanId : fact; vswitchName : fact }.
Record t := { key : string; spec : Spec }.
End PortGroup.

(** Proxy switches, virtual switches, adapters and LUNs are keyed objects
    read with [getattr]. *)
Module Keyed.
Record t := { key : string; attrs : DataObject }.
End Keyed.

Record NetworkInfo := {
  pnic : list PhysicalNic.t;
  vnic : list VirtualNic.t;
  portgroup : list PortGroup.t;
  proxySwitch : list Keyed.t;
  vswitch : list Keyed.t
}.

(** *** The storage objects *)

Module MountInfo.
Record Volume := { name : string; capacity : fact; type : fact }.
Record Info := {
  path : fact;
  accessMode : fact;
  mounted : fact;
  accessible : option bool;
  inaccessibleReason : fact
}.
Record t := { volume : Volume; vStorageSupport : fact; mountInfo : Info }.
End MountInfo.

Module PathState.
Record t := { name : string; pathState : fact }.
End PathState.

Record StorageSystem := {
  systemFile : fact;
  hostBusAdapter : list Keyed.t;     (* storageDeviceInfo.hostBusAdapter, keyed by device *)
  scsiLun : list Keyed.t;            (* storageDeviceInfo.scsiLun, keyed by uuid *)
  volumeTypeList : fact;             (* fileSystemVolumeInfo.volumeTypeList *)
  mountInfo : list MountInfo.t;      (* fileSystemVolumeInfo.mountInfo *)
  multipath : list PathState.t       (* multipathStateInfo.path *)
}.

Module Datastore.
(** [datastore.info]: its name and the attributes read by name; of the
    three sizes the SDK leaves [maxVirtualDiskCapacity] optional. *)
Record t := { name : string; info : DataObject }.
End Datastore.

Record HostSystem := {
  config_product : DataObject;
  datastore : list Datastore.t;
  summary_hardware : DataObject;
  networkInfo : NetworkInfo;
  storageSystem : StorageSystem
}.

(** *** Optional sub-objects inside a [try] *)

(** [o.attr] where [o] may be unset: reading an attribute of [None]
    raises. *)
Definition attr_of {S A} (o : option A) (f : A -> fact) (attr : string) : M S fact :=
  match o with
  | Some x => ret (f x)
  | None =>
      raise (Exception "AttributeError"
               ("'NoneType' object has no attribute '" +:+ attr +:+ "'"))
  end.

(** [try: body except: pass] on the dictionary the body assigns into:
    whatever the body raises is dropped, what it had assigned stays. *)
Definition try_pass (body : M dict unit) (d : dict) : dict := snd (body d).

Definition of_bool_option (b : option bool) : fact :=
  match b with
  | Some b => FBool b
  | None => FNone
  end.

(** Truth value of an optional boolean. *)
Definition truthy (b : option bool) : bool :=
  match b with
  | Some b => b
  | None => false
  end.

Section Facts.

(** [bytes_to_human] of the automation framework. *)
Variable bytes_to_human : fact -> fact.

Variable host_system : HostSystem.

Definition get_system_facts : dict :=
  let facts : dict := ∅ in
  let product_info := config_product host_system in
  copy_attrs id product_info
    ["name"; "fullName"; "vendor"; "version"; "build";
     "localeVersion"; "localeBuild"; "osType"; "productLineId";
     "apiType"; "apiVersion"; "instanceUuid";
     "licenseProductName"; "licenseProductVersion"] facts.

(** [for x in xs: d[key(x)] = entry(x)] where evaluating the entry may
    raise: the loop ends at the first object that raises. *)
Fixpoint collect_from {A} (key : A -> string) (entry : A -> exn + fact) (xs : list A)
    (d : dict) : exn + dict :=
  match xs with
  | [] => inr d
  | x :: xs' =>
      match entry x with
      | inr v => collect_from key entry xs' (<[key x := v]> d)
      | inl e => inl e
      end
  end.

Definition as_fact (r : exn + dict) : exn + fact :=
  match r with
  | inr d => inr (FDict d)
  | inl e => inl e
  end.

(** [bytes_to_human(getattr(datastore_info, attr))]: the function converts
    its argument with [float], which raises on an attribute the host left
    unset. *)
Definition humanize (size : fact) : exn + fact :=
  match size with
  | FNone => inl (Exception "TypeError" "float() argument must be a string or a number")
  | _ => inr (bytes_to_human size)
  end.

Definition datastore_entry (ds : Datastore.t) : exn + dict :=
  let datastore_info := Datastore.info ds in
  let entry : dict := ∅ in
  let entry :=
    copy_attrs id datastore_info ["url"; "containerId"; "timestamp"] entry in
  collect_from id (fun attr => humanize (getattr datastore_info attr))
    ["freeSpace"; "maxFileSize"; "maxVirtualDiskCapacity"] entry.

Definition get_datastore_facts : exn + dict :=
  let facts : dict := ∅ in
  collect_from Datastore.name (fun ds => as_fact (datastore_entry ds))
    (datastore host_system) facts.

(** The memory size is a required property of the hardware summary. *)
Definition get_hardware_facts : dict :=
  let facts : dict := ∅ in
  let hardware := summary_hardware host_system in
  let facts := <["total_memory" := bytes_to_human (getattr hardware "memorySize")]> facts in
  copy_attrs id hardware
    ["vendor"; "model"; "uuid"; "cpuModel"; "cpuMhz";
     "numCpuPkgs"; "numCpuCores"; "numCpuThreads"; "numNics"; "numHBAs"] facts.

(** The entry of one physical NIC: the three plain fields, then the
    link speed inside the [try]. *)
Definition pnic_entry (nic : PhysicalNic.t) : dict :=
  let entry : dict :=
    {[ "driver" := PhysicalNic.driver nic;
       "mac" := PhysicalNic.mac nic;
       "pci" := PhysicalNic.pci nic ]} in
  try_pass
    (speed <- attr_of (PhysicalNic.linkSpeed nic) PhysicalNic.speedMb "speedMb";;
     modify (insert "speed" speed);;
     fullduplex <- attr_of (PhysicalNic.linkSpeed nic) PhysicalNic.duplex "duplex";;
     modify (insert "fullduplex" fullduplex))
    entry.

(** The [ipv6] dictionary of a virtual NIC with the IP configuration
    [ip]; every keyword argument is evaluated, in order, before anything is
    assigned. *)
Definition vnic_ipv6 (ip : IpConfig.t) : M dict unit :=
  address <-
    match IpConfig.ipV6Config ip with
    | Some c => a <- index0 (IpV6Config.ipV6Address c);; ret (IpV6Address.ipAddress a)
    | None =>
        raise (Exception "AttributeError"
                 "'NoneType' object has no attribute 'ipV6Address'")
    end;;
  prefix <-
    match IpConfig.ipV6Config ip with
    | Some c => a <- index0 (IpV6Config.ipV6Address c);; ret (IpV6Address.prefixLength a)
    | None =>
        raise (Exception "AttributeError"
                 "'NoneType' object has no attribute 'ipV6Address'")
    end;;
  autoconf <- attr_of (IpConfig.ipV6Config ip) IpV6Config.autoConfigurationEnabled
                "autoConfigurationEnabled";;
  dhcp <- attr_of (IpConfig.ipV6Config ip) IpV6Config.dhcpV6Enabled "dhcpV6Enabled";;
  modify (insert "ipv6"
            (FDict {[ "address" := address; "prefix" := prefix;
                      "autoconf" := autoconf; "dhcp" := dhcp ]})).

(** The entry of one virtual NIC: the IPv4 fields are read from
    [nic.spec.ip] before the [try], so a specification without IP
    configuration raises out of the loop; the IPv6 fields are read inside the
    [try]. *)
Definition vnic_entry (nic : VirtualNic.t) : exn + dict :=
  let spec := VirtualNic.spec nic in
  match VirtualNic.ip spec with
  | Some ip =>
      let entry : dict :=
        {[ "portgroup" := VirtualNic.portgroup nic;
           "mac" := VirtualNic.mac spec;
           "mtu" := VirtualNic.mtu spec;
           "ipv4" := FDict {[ "address" := IpConfig.ipAddress ip;
                              "netmask" := IpConfig.subnetMask ip;
                              "dhcp" := IpConfig.dhcp ip ]} ]} in
      inr (try_pass (vnic_ipv6 ip) entry)
  | None =>
      inl (Exception "AttributeError" "'NoneType' object has no attribute 'ipAddress'")
  end.

Definition portgroup_entry (pg : PortGroup.t) : dict :=
  {[ "name" := PortGroup.name (PortGroup.spec pg);
     "vlanId" := PortGroup.vlanId (PortGroup.spec pg);
     "vswitchName" := PortGroup.vswitchName (PortGroup.spec pg) ]}.

(** [for x in xs: d[key(x)] = entry(x)]; a later object of the same key
    replaces the earlier one. *)
Definition collect {A} (key : A -> string) (entry : A -> fact) (xs : list A) : dict :=
  fold_left (fun d x => <[key x := entry x]> d) xs ∅.

Definition get_network_facts : exn + dict :=
  let network_info := networkInfo host_system in
  let pnics := collect PhysicalNic.device (fun nic => FDict (pnic_entry nic))
                 (pnic network_info) in
  match collect_from VirtualNic.device (fun nic => as_fact (vnic_entry nic))
          (vnic network_info) ∅ with
  | inl e => inl e
  | inr vnics =>
      let portgroups := collect PortGroup.key (fun pg => FDict (portgroup_entry pg))
                          (portgroup network_info) in
      let proxySwitch_ :=
        collect Keyed.key
          (fun psw => FDict (copy_attrs id (Keyed.attrs psw)
                               ["dvsName"; "dvsUuid"; "numPorts"; "numPorts";
                                "configNumPorts"; "numPortsAvailable"; "mtu";
                                "networkReservationSupported"] ∅))
          (proxySwitch network_info) in
      let vswitch_ :=
        collect Keyed.key
          (fun vsw => FDict (copy_attrs id (Keyed.attrs vsw)
                               ["name"; "numPorts"; "numPortsAvailable"; "mtu"] ∅))
          (vswitch network_info) in
      inr {[ "pnics" := FDict pnics; "vnics" := FDict vnics;
             "portgroups" := FDict portgroups; "vswitch" := FDict vswitch_;
             "proxySwitch" := FDict proxySwitch_ ]}
  end.

(** The capacity is a required property of a volume. *)
Definition mount_entry (m : MountInfo.t) : dict :=
  let i := MountInfo.mountInfo m in
  let entry : dict :=
    {[ "capacity" := bytes_to_human (MountInfo.capacity (MountInfo.volume m));
       "type" := MountInfo.type (MountInfo.volume m);
       "vStorageSupport" := MountInfo.vStorageSupport m;
       "path" := MountInfo.path i;
       "accessMode" := MountInfo.accessMode i;
       "mounted" := MountInfo.mounted i;
       "accessible" := of_bool_option (MountInfo.accessible i) ]} in
  if negb (truthy (MountInfo.accessible i))
  then <["inaccessibleReason" := MountInfo.inaccessibleReason i]> entry
  else entry.

Definition get_storage_facts : dict :=
  let storage := storageSystem host_system in
  let hba :=
    collect Keyed.key
      (fun hba => FDict (copy_attrs id (Keyed.attrs hba)
                           ["key"; "bus"; "status"; "model"; "driver"; "pci"] ∅))
      (hostBusAdapter storage) in
  let lun :=
    collect Keyed.key
      (fun lun => FDict (copy_attrs id (Keyed.attrs lun)
                           ["displayName"; "lunType"; "vendor"; "revision";
                            "scsiLevel"] ∅))
      (scsiLun storage) in
  let mountinfo :=
    collect (fun m => MountInfo.name (MountInfo.volume m))
            (fun m => FDict (mount_entry m)) (mountInfo storage) in
  let multipath_ := collect PathState.name PathState.pathState (multipath storage) in
  {[ "hba" := FDict hba; "lun" := FDict lun; "multipath" := FDict multipath_;
     "systemfile" := systemFile storage; "mountinfo" := FDict mountinfo;
     "volumeTypeList" := volumeTypeList storage ]}.

(** [eval('self.get_{}_facts'.format(type))()]: the method of that name,
    if the class has one, and what calling it gives. *)
Definition get_type_facts (type : string) : option (exn + dict) :=
  if bool_decide (type = "system") then Some (inr get_system_facts)
  else if bool_decide (type = "datastore") then Some get_datastore_facts
  else if bool_decide (type = "hardware") then Some (inr get_hardware_facts)
  else if bool_decide (type = "network") then Some get_network_facts
  else if bool_decide (type = "storage") then Some (inr get_storage_facts)
  else None.

(** The loop of [get_facts]: an exception of a routine leaves the loop. *)
Fixpoint get_facts_from (types : list string) (facts : dict) : exn + dict :=
  match types with
  | [] => inr facts
  | type :: types' =>
      match get_type_facts type with
      | Some (inr d) => get_facts_from types' (<[type := FDict d]> facts)
      | Some (inl e) => inl e
      | None =>
          inl (Exception "AttributeError"
                 ("'EsxiFacts' object has no attribute 'get_" +:+ type +:+ "_facts'"))
      end
  end.

Definition get_facts (types : list string) : exn + dict :=
  get_facts_from types ∅.

End Facts.

(** The IPv6 configuration of a virtual NIC is absent: the IP configuration
    is unset, or its IPv6 object is unset, or that lists no address. *)
Definition ipv6_absent (nic : VirtualNic.t) : Prop :=
  match VirtualNic.ip (VirtualNic.spec nic) with
  | Some ip =>
      match IpConfig.ipV6Config ip with
      | Some c => IpV6Config.ipV6Address c = []
      | None => True
      end
  | None => True
  end.

Definition SUPPORTED_TYPES : list string :=
  ["all"; "hardware"; "network"; "storage"; "datastore"; "system"].

Inductive FactsReport :=
  | exit_json_facts (changed : bool) (esxi_facts : dict)
  | failed_facts (msg : string).

Definition main (bytes_to_human : fact -> fact) (types_param : string)
    (host_system : HostSystem) : FactsReport :=
  let types :=
    if bool_decide (types_param = "all")
    then filter (fun e => e ≠ "all") SUPPORTED_TYPES
    else [types_param] in
  match get_facts bytes_to_human host_system types with
  | inr facts => exit_json_facts false facts
  | inl (SystemExit msg) | inl (Fault msg) | inl (Exception _ msg) => failed_facts msg
  end.

End vmware_esxi_facts.

(** ** The three reconcilers behind one entry point *)

(** What a caller asks of a mutating module: the module and its parameters. *)
Inductive Desired :=
  | service_state (name state policy : string)
  | advanced_setting (option value : string)
  | datetime_config (ntp_servers : list string) (ntpd_state : string)
      (timezone : option string).

(** One invocation of the module on a host. *)
Definition reconcile (vim : list string) (d : Desired) (host_system : HostSystem)
  : Report * World :=
  match d with
  | service_state name state policy =>
      vmware_service.main name state policy host_system
  | advanced_setting option value =>
      vmware_advanced_setting.main option value host_system
  | datetime_config ntp_servers ntpd_state timezone =>
      vmware_datetime_config.main vim ntp_servers ntpd_state timezone host_system
  end.

(** The desired run-state is not [restarted] (the advanced-setting module
    has no run-state). *)
Definition no_restart (d : Desired) : Prop :=
  match d with
  | service_state _ state _ => state ≠ "restarted"
  | advanced_setting _ _ => True
  | datetime_config _ ntpd_state _ => ntpd_state ≠ "restarted"
  end.

(** The option an advanced-setting request addresses does not hold a
    boolean on this host. *)
Definition not_bool_option (d : Desired) (h : HostSystem) : Prop :=
  match d with
  | advanced_setting option _ =>
      forall b, advancedOption h !! vmware_advanced_setting.normalize_option option
                ≠ Some (Py.Bool b)
  | _ => True
  end.


(** A call that submits a timezone. *)
Definition submits_timezone (c : Call) : bool :=
  match c with
  | call_UpdateDateTimeConfig config =>
      match timeZone config with
      | Some _ => true
      | None => false
      end
  | _ => false
  end.


(** What the option holds once the module has had its way: the supplied
    string read as an integer, or the string itself. *)
Definition holds_supplied (value : string) (v : Py.value) : Prop :=
  (exists n, Py.long value = Some n /\ v = Py.Long n) \/ v = Py.Str value.

(** ** Example hosts *)

(** A host with a running SSH service, a stopped NTP daemon, one NTP server
    and three advanced options, one of each handled type. *)
Definition host_ssh : HostSystem := {|
  advancedOption :=
    {[ "UserVars.SuppressShellWarning" := Py.Long 5;
       "Syslog.global.logHost" := Py.Str "udp://loghost:514";
       "Misc.LogToSerial" := Py.Bool true ]};
  serviceInfo_service :=
    [HostService.mk "TSM-SSH" true "on"; HostService.mk "ntpd" false "off"];
  dateTimeInfo_ntpConfig_server := ["ntp-001.example.com"];
  dateTimeInfo_timeZone_name := "UTC";
  availableTimeZones := ["UTC"; "Europe/Amsterdam"] |}.

(** The same host without an NTP daemon among its services. *)
Definition host_no_ntpd : HostSystem := {|
  advancedOption := advancedOption host_ssh;
  serviceInfo_service := [HostService.mk "TSM-SSH" true "on"];
  dateTimeInfo_ntpConfig_server := ["ntp-001.example.com"];
  dateTimeInfo_timeZone_name := "UTC";
  availableTimeZones := ["UTC"; "Europe/Amsterdam"] |}.

(** A data object given by the attributes that are set. *)
Definition data_object (attrs : list (string * vmware_esxi_facts.fact))
  : vmware_esxi_facts.DataObject :=
  fun attr =>
    match List.find (fun kv => bool_decide (fst kv = attr)) attrs with
    | Some kv => snd kv
    | None => vmware_esxi_facts.FNone
    end.

(** Two uplinks, the second without link, and two VMkernel NICs, the
    second without IPv6. *)
Definition vmnic0 : vmware_esxi_facts.PhysicalNic.t :=
  {| vmware_esxi_facts.PhysicalNic.device := "vmnic0";
     vmware_esxi_facts.PhysicalNic.driver := vmware_esxi_facts.FStr "igb";
     vmware_esxi_facts.PhysicalNic.mac := vmware_esxi_facts.FStr "00:25:90:00:00:01";
     vmware_esxi_facts.PhysicalNic.pci := vmware_esxi_facts.FStr "0000:01:00.0";
     vmware_esxi_facts.PhysicalNic.linkSpeed :=
       Some {| vmware_esxi_facts.PhysicalNic.speedMb := vmware_esxi_facts.FInt 1000;
               vmware_esxi_facts.PhysicalNic.duplex := vmware_esxi_facts.FBool true |} |}.

Definition vmnic1 : vmware_esxi_facts.PhysicalNic.t :=
  {| vmware_esxi_facts.PhysicalNic.device := "vmnic1";
     vmware_esxi_facts.PhysicalNic.driver := vmware_esxi_facts.FStr "igb";
     vmware_esxi_facts.PhysicalNic.mac := vmware_esxi_facts.FStr "00:25:90:00:00:02";
     vmware_esxi_facts.PhysicalNic.pci := vmware_esxi_facts.FStr "0000:01:00.1";
     vmware_esxi_facts.PhysicalNic.linkSpeed := None |}.

Definition vmk0 : vmware_esxi_facts.VirtualNic.t :=
  {| vmware_esxi_facts.VirtualNic.device := "vmk0";
     vmware_esxi_facts.VirtualNic.portgroup := vmware_esxi_facts.FStr "Management Network";
     vmware_esxi_facts.VirtualNic.spec :=
       {| vmware_esxi_facts.VirtualNic.mac := vmware_esxi_facts.FStr "00:50:56:00:00:01";
          vmware_esxi_facts.VirtualNic.mtu := vmware_esxi_facts.FInt 1500;
          vmware_esxi_facts.VirtualNic.ip := Some
            {| vmware_esxi_facts.IpConfig.ipAddress := vmware_esxi_facts.FStr "192.0.2.10";
               vmware_esxi_facts.IpConfig.subnetMask :=
                 vmware_esxi_facts.FStr "255.255.255.0";
               vmware_esxi_facts.IpConfig.dhcp := vmware_esxi_facts.FBool false;
               vmware_esxi_facts.IpConfig.ipV6Config :=
                 Some {| vmware_esxi_facts.IpV6Config.ipV6Address :=
                           [ {| vmware_esxi_facts.IpV6Address.ipAddress :=
                                  vmware_esxi_facts.FStr "fe80::250:56ff:fe00:1";
                                vmware_esxi_facts.IpV6Address.prefixLength :=
                                  vmware_esxi_facts.FInt 64 |} ];
                         vmware_esxi_facts.IpV6Config.autoConfigurationEnabled :=
                           vmware_esxi_facts.FBool true;
                         vmware_esxi_facts.IpV6Config.dhcpV6Enabled :=
                           vmware_esxi_facts.FBool false |} |} |} |}.

Definition vmk1 : vmware_esxi_facts.VirtualNic.t :=
  {| vmware_esxi_facts.VirtualNic.device := "vmk1";
     vmware_esxi_facts.VirtualNic.portgroup := vmware_esxi_facts.FStr "vMotion";
     vmware_esxi_facts.VirtualNic.spec :=
       {| vmware_esxi_facts.VirtualNic.mac := vmware_esxi_facts.FStr "00:50:56:00:00:02";
          vmware_esxi_facts.VirtualNic.mtu := vmware_esxi_facts.FInt 9000;
          vmware_esxi_facts.VirtualNic.ip := Some
            {| vmware_esxi_facts.IpConfig.ipAddress :=
                 vmware_esxi_facts.FStr "198.51.100.10";
               vmware_esxi_facts.IpConfig.subnetMask :=
                 vmware_esxi_facts.FStr "255.255.255.0";
               vmware_esxi_facts.IpConfig.dhcp := vmware_esxi_facts.FBool false;
               vmware_esxi_facts.IpConfig.ipV6Config := None |} |} |}.

Definition host_facts : vmware_esxi_facts.HostSystem :=
  let FStr := vmware_esxi_facts.FStr in
  let FInt := vmware_esxi_facts.FInt in
  {| vmware_esxi_facts.config_product :=
       data_object [("name", FStr "VMware ESXi"); ("version", FStr "6.0.0")];
     vmware_esxi_facts.datastore :=
       [ {| vmware_esxi_facts.Datastore.name := "datastore1";
            vmware_esxi_facts.Datastore.info :=
              data_object [("url", FStr "/vmfs/volumes/5f0c"); ("freeSpace", FInt 1024)] |} ];
     vmware_esxi_facts.summary_hardware :=
       data_object [("vendor", FStr "Dell Inc."); ("memorySize", FInt 17179869184);
                    ("numNics", FInt 2)];
     vmware_esxi_facts.networkInfo :=
       {| vmware_esxi_facts.pnic := [vmnic0; vmnic1];
          vmware_esxi_facts.vnic := [vmk0; vmk1];
          vmware_esxi_facts.portgroup :=
            [ {| vmware_esxi_facts.PortGroup.key := "key-vim.host.PortGroup-vMotion";
                 vmware_esxi_facts.PortGroup.spec :=
                   {| vmware_esxi_facts.PortGroup.name := FStr "vMotion";
                      vmware_esxi_facts.PortGroup.vlanId := FInt 0;
                      vmware_esxi_facts.PortGroup.vswitchName := FStr "vSwitch0" |} |} ];
          vmware_esxi_facts.proxySwitch := [];
          vmware_esxi_facts.vswitch :=
            [ {| vmware_esxi_facts.Keyed.key := "key-vim.host.VirtualSwitch-vSwitch0";
                 vmware_esxi_facts.Keyed.attrs :=
                   data_object [("name", FStr "vSwitch0"); ("mtu", FInt 1500)] |} ] |};
     vmware_esxi_facts.storageSystem :=
       {| vmware_esxi_facts.systemFile := vmware_esxi_facts.FList [];
          vmware_esxi_facts.hostBusAdapter := [];
          vmware_esxi_facts.scsiLun := [];
          vmware_esxi_facts.volumeTypeList := vmware_esxi_facts.FList [FStr "VMFS"];
          vmware_esxi_facts.mountInfo := [];
          vmware_esxi_facts.multipath := [] |} |}.

(** ** Further vocabulary and example hosts *)

(** The character occurs in the string. *)
Fixpoint contains_char (c : ascii) (s : string) : bool :=
  match s with
  | EmptyString => false
  | String c' s' => (Ascii.eqb c' c || contains_char c s')%bool
  end.

(** The service a call is addressed to, for the calls of the service
    system. *)
Definition call_key (c : Call) : option string :=
  match c with
  | call_RestartService key | call_StartService key | call_StopService key
  | call_UpdateServicePolicy key _ => Some key
  | _ => None
  end.

Definition is_policy_call (c : Call) : bool :=
  match c with
  | call_UpdateServicePolicy _ _ => true
  | _ => false
  end.

(** A call that submits a list of NTP servers. *)
Definition submits_servers (c : Call) : bool :=
  match c with
  | call_UpdateDateTimeConfig config =>
      match ntpConfig config with
      | Some _ => true
      | None => false
      end
  | _ => false
  end.

(** The services of the other keys. *)
Definition other_services (key : string) (l : list HostService.t) : list HostService.t :=
  filter (fun s => HostService.key s ≠ key) l.

(** A host with two NTP servers. *)
Definition host_two_servers : HostSystem := {|
  advancedOption := ∅;
  serviceInfo_service :=
    [HostService.mk "ntpd" true "on"; HostService.mk "TSM-SSH" false "off"];
  dateTimeInfo_ntpConfig_server := ["ntp-001.example.com"; "ntp-002.example.com"];
  dateTimeInfo_timeZone_name := "UTC";
  availableTimeZones := ["UTC"; "Europe/Amsterdam"] |}.

(** A host with one advanced option, held as a plain [int]. *)
Definition host_int_option : HostSystem := {|
  advancedOption := {[ "Net.TcpipHeapSize" := Py.Int 0 ]};
  serviceInfo_service := [HostService.mk "ntpd" true "on"];
  dateTimeInfo_ntpConfig_server := [];
  dateTimeInfo_timeZone_name := "UTC";
  availableTimeZones := ["UTC"] |}.

(** A second report of the uplink [vmnic1], now with link. *)
Definition vmnic1_up : vmware_esxi_facts.PhysicalNic.t :=
  {| vmware_esxi_facts.PhysicalNic.device := "vmnic1";
     vmware_esxi_facts.PhysicalNic.driver := vmware_esxi_facts.FStr "igb";
     vmware_esxi_facts.PhysicalNic.mac := vmware_esxi_facts.FStr "00:25:90:00:00:02";
     vmware_esxi_facts.PhysicalNic.pci := vmware_esxi_facts.FStr "0000:01:00.1";
     vmware_esxi_facts.PhysicalNic.linkSpeed :=
       Some {| vmware_esxi_facts.PhysicalNic.speedMb := vmware_esxi_facts.FInt 100;
               vmware_esxi_facts.PhysicalNic.duplex := vmware_esxi_facts.FBool false |} |}.

(** A local volume that is accessible and an NFS volume that is not. *)
Definition mount_local : vmware_esxi_facts.MountInfo.t :=
  {| vmware_esxi_facts.MountInfo.volume :=
       {| vmware_esxi_facts.MountInfo.name := "datastore1";
          vmware_esxi_facts.MountInfo.capacity := vmware_esxi_facts.FInt 1099511627776;
          vmware_esxi_facts.MountInfo.type := vmware_esxi_facts.FStr "VMFS" |};
     vmware_esxi_facts.MountInfo.vStorageSupport :=
       vmware_esxi_facts.FStr "vStorageUnsupported";
     vmware_esxi_facts.MountInfo.mountInfo :=
       {| vmware_esxi_facts.MountInfo.path :=
            vmware_esxi_facts.FStr "/vmfs/volumes/5f0c";
          vmware_esxi_facts.MountInfo.accessMode := vmware_esxi_facts.FStr "readWrite";
          vmware_esxi_facts.MountInfo.mounted := vmware_esxi_facts.FBool true;
          vmware_esxi_facts.MountInfo.accessible := Some true;
          vmware_esxi_facts.MountInfo.inaccessibleReason := vmware_esxi_facts.FNone |} |}.

Definition mount_nfs : vmware_esxi_facts.MountInfo.t :=
  {| vmware_esxi_facts.MountInfo.volume :=
       {| vmware_esxi_facts.MountInfo.name := "nfs-backup";
          vmware_esxi_facts.MountInfo.capacity := vmware_esxi_facts.FInt 0;
          vmware_esxi_facts.MountInfo.type := vmware_esxi_facts.FStr "NFS" |};
     vmware_esxi_facts.MountInfo.vStorageSupport :=
       vmware_esxi_facts.FStr "vStorageUnknown";
     vmware_esxi_facts.MountInfo.mountInfo :=
       {| vmware_esxi_facts.MountInfo.path :=
            vmware_esxi_facts.FStr "/vmfs/volumes/a1b2";
          vmware_esxi_facts.MountInfo.accessMode := vmware_esxi_facts.FStr "readOnly";
          vmware_esxi_facts.MountInfo.mounted := vmware_esxi_facts.FBool true;
          vmware_esxi_facts.MountInfo.accessible := Some false;
          vmware_esxi_facts.MountInfo.inaccessibleReason :=
            vmware_esxi_facts.FStr "AllPathsDown_Start" |} |}.

(** The example host with the uplink [vmnic1] reported twice and the two
    volumes mounted. *)
Definition host_mounts : vmware_esxi_facts.HostSystem :=
  {| vmware_esxi_facts.config_product := vmware_esxi_facts.config_product host_facts;
     vmware_esxi_facts.datastore := vmware_esxi_facts.datastore host_facts;
     vmware_esxi_facts.summary_hardware := vmware_esxi_facts.summary_hardware host_facts;
     vmware_esxi_facts.networkInfo :=
       {| vmware_esxi_facts.pnic := [vmnic1; vmnic0; vmnic1_up];
          vmware_esxi_facts.vnic := [vmk0; vmk1];
          vmware_esxi_facts.portgroup := [];
          vmware_esxi_facts.proxySwitch := [];
          vmware_esxi_facts.vswitch := [] |};
     vmware_esxi_facts.storageSystem :=
       {| vmware_esxi_facts.systemFile := vmware_esxi_facts.FList [];
          vmware_esxi_facts.hostBusAdapter := [];
          vmware_esxi_facts.scsiLun := [];
          vmware_esxi_facts.volumeTypeList := vmware_esxi_facts.FList [];
          vmware_esxi_facts.mountInfo := [mount_local; mount_nfs];
          vmware_esxi_facts.multipath := [] |} |}.

(** A host whose option holds the integer 5 as a plain [int]. *)
Definition host_int_five : HostSystem := {|
  advancedOption := {[ "Net.TcpipHeapSize" := Py.Int 5 ]};
  serviceInfo_service := [HostService.mk "ntpd" true "on"];
  dateTimeInfo_ntpConfig_server := [];
  dateTimeInfo_timeZone_name := "UTC";
  availableTimeZones := ["UTC"] |}.

(** A VMkernel NIC whose specification has no IP configuration. *)
Definition vmk2 : vmware_esxi_facts.VirtualNic.t :=
  {| vmware_esxi_facts.VirtualNic.device := "vmk2";
     vmware_esxi_facts.VirtualNic.portgroup := vmware_esxi_facts.FStr "Storage";
     vmware_esxi_facts.VirtualNic.spec :=
       {| vmware_esxi_facts.VirtualNic.mac := vmware_esxi_facts.FStr "00:50:56:00:00:03";
          vmware_esxi_facts.VirtualNic.mtu := vmware_esxi_facts.FInt 1500;
          vmware_esxi_facts.VirtualNic.ip := None |} |}.

(** The example host with that NIC between the two others. *)
Definition host_vmk2 : vmware_esxi_facts.HostSystem :=
  {| vmware_esxi_facts.config_product := vmware_esxi_facts.config_product host_facts;
     vmware_esxi_facts.datastore := vmware_esxi_facts.datastore host_facts;
     vmware_esxi_facts.summary_hardware := vmware_esxi_facts.summary_hardware host_facts;
     vmware_esxi_facts.networkInfo :=
       {| vmware_esxi_facts.pnic := [vmnic0; vmnic1];
          vmware_esxi_facts.vnic := [vmk0; vmk2; vmk1];
          vmware_esxi_facts.portgroup := [];
          vmware_esxi_facts.proxySwitch := [];
          vmware_esxi_facts.vswitch := [] |};
     vmware_esxi_facts.storageSystem := vmware_esxi_facts.storageSystem host_facts |}.

(** A datastore that reports its three sizes. *)
Definition datastore2 : vmware_esxi_facts.Datastore.t :=
  {| vmware_esxi_facts.Datastore.name := "datastore2";
     vmware_esxi_facts.Datastore.info :=
       data_object [("url", vmware_esxi_facts.FStr "/vmfs/volumes/6a1d");
                    ("freeSpace", vmware_esxi_facts.FInt 2048);
                    ("maxFileSize", vmware_esxi_facts.FInt 4096);
                    ("maxVirtualDiskCapacity", vmware_esxi_facts.FInt 8192)] |}.

(** The example host with that datastore alone. *)
Definition host_datastore2 : vmware_esxi_facts.HostSystem :=
  {| vmware_esxi_facts.config_product := vmware_esxi_facts.config_product host_facts;
     vmware_esxi_facts.datastore := [datastore2];
     vmware_esxi_facts.summary_hardware := vmware_esxi_facts.summary_hardware host_facts;
     vmware_esxi_facts.networkInfo := vmware_esxi_facts.networkInfo host_facts;
     vmware_esxi_facts.storageSystem := vmware_esxi_facts.storageSystem host_facts |}.

(** * Properties *)

(** ** The built-ins on small inputs *)

Example long_decimal : Py.long "5" = Some 5.
Proof. reflexivity. Qed.

Example long_padded_negative : Py.long "  -42L " = Some (-42).
Proof. reflexivity. Qed.

Example long_rejects_text : Py.long "on" = None.
Proof. reflexivity. Qed.

Example long_rejects_empty : Py.long "" = None.
Proof. reflexivity. Qed.

Example long_space_after_sign : Py.long "- 5" = Some (-5).
Proof. reflexivity. Qed.

Example long_rejects_two_suffixes : Py.long "5LL" = None.
Proof. reflexivity. Qed.

Example long_rejects_nul :
  Py.long (String "5" (String (ascii_of_nat 0) "5")) = None /\
  Py.long_error (String "5" (String (ascii_of_nat 0) "5"))
  = "null byte in argument for long()".
Proof. by split. Qed.

Example long_error_quotes_the_text :
  Py.long_error "on" = "invalid literal for long() with base 10: 'on'".
Proof. reflexivity. Qed.

Example long_error_escapes_a_tab :
  Py.long_error ("1" +:+ String (ascii_of_nat 9) "2")
  = "invalid literal for long() with base 10: '1\t2'".
Proof. reflexivity. Qed.

Example long_error_switches_quotes :
  Py.long_error "a'b"
  = "invalid literal for long() with base 10: "
    +:+ String Py.double_quote ("a'b" +:+ String Py.double_quote "").
Proof. reflexivity. Qed.

Example bool_is_no_string : Py.ne (Py.Bool true) (Py.Str "True") = true.
Proof. reflexivity. Qed.

Example true_is_one : Py.eq (Py.Bool true) (Py.Long 1) = true.
Proof. reflexivity. Qed.

Example sub_keeps_the_lines_below :
  Py.sub_leading_slash ("/a" +:+ String Py.newline "/b") = "a" +:+ String Py.newline "/b".
Proof. reflexivity. Qed.

(** ** Option paths *)

Lemma dot_star_app (s : string) :
  fst (Py.dot_star s) +:+ snd (Py.dot_star s) = s.
Proof.
  induction s as [|c s IH]; simpl; [done|].
  destruct (Ascii.eqb c Py.newline); simpl; [done|].
  destruct (Py.dot_star s) as [g rest]; simpl in *.
  by rewrite <- IH.
Qed.

Lemma sub_leading_slash_strips (p : string) :
  Py.sub_leading_slash (String "/" p) = p.
Proof.
  unfold Py.sub_leading_slash.
  pose proof (dot_star_app p) as H.
  by destruct (Py.dot_star p).
Qed.

Lemma sub_leading_slash_other (c : ascii) (p : string) :
  c ≠ "/"%char -> Py.sub_leading_slash (String c p) = String c p.
Proof.
  intros Hc. unfold Py.sub_leading_slash.
  destruct c as [[] [] [] [] [] [] [] []]; try reflexivity. by destruct Hc.
Qed.

Lemma replace_char_twice (p : string) :
  Py.replace_char "/" "." (Py.replace_char "/" "." p) = Py.replace_char "/" "." p.
Proof.
  induction p as [|c p IH]; simpl; [done|].
  rewrite IH. f_equal.
  destruct (Ascii.eqb c "/") eqn:E; [done|]. by rewrite E.
Qed.

Lemma sub_leading_slash_dotted (p : string) :
  Py.sub_leading_slash (Py.replace_char "/" "." p) = Py.replace_char "/" "." p.
Proof.
  destruct p as [|c p]; [done|]. simpl.
  apply sub_leading_slash_other.
  destruct (Ascii.eqb c "/") eqn:E; [done|].
  by apply Ascii.eqb_neq.
Qed.

(** C4: normalization removes one leading slash and turns every other slash
    into a dot, so a slash-delimited path with a leading slash and the same
    path written with dots give the same lookup key, as the two spellings of
    [UserVars.SuppressShellWarning] do. *)
Theorem normalize_option_slash_dot :
  (forall p, vmware_advanced_setting.normalize_option (String "/" p)
             = Py.replace_char "/" "." p) /\
  (forall p, vmware_advanced_setting.normalize_option (Py.replace_char "/" "." p)
             = Py.replace_char "/" "." p) /\
  (forall p, vmware_advanced_setting.normalize_option (String "/" p)
             = vmware_advanced_setting.normalize_option (Py.replace_char "/" "." p)) /\
  vmware_advanced_setting.normalize_option "/UserVars/SuppressShellWarning"
  = "UserVars.SuppressShellWarning" /\
  vmware_advanced_setting.normalize_option "UserVars.SuppressShellWarning"
  = "UserVars.SuppressShellWarning".
Proof.
  assert (Hslash : forall p, vmware_advanced_setting.normalize_option (String "/" p)
                             = Py.replace_char "/" "." p).
  { intros p. unfold vmware_advanced_setting.normalize_option.
    by rewrite sub_leading_slash_strips. }
  assert (Hdot : forall p, vmware_advanced_setting.normalize_option
                             (Py.replace_char "/" "." p)
                           = Py.replace_char "/" "." p).
  { intros p. unfold vmware_advanced_setting.normalize_option.
    by rewrite sub_leading_slash_dotted, replace_char_twice. }
  repeat split; try done.
  intros p. by rewrite Hslash, Hdot.
Qed.

(** ** Running a module body *)

(** Unfolds the monad and the SDK calls, and runs what is then closed. *)
Ltac run_py :=
  cbv beta iota zeta delta
    [run_module on_host bind ret raise gets modify fail_json index0
     RestartService StartService StopService UpdateServicePolicy QueryOptions
     UpdateOptions QueryAvailableTimeZones UpdateDateTimeConfig issue id];
  simpl.

Lemma filter_key_none (name : string) (l : list HostService.t) :
  (forall s, s ∈ l -> HostService.key s ≠ name) ->
  filter (fun s => HostService.key s = name) l = [].
Proof.
  induction l as [|s l IH]; intros H; [done|].
  rewrite filter_cons. destruct (decide (HostService.key s = name)) as [E|_].
  - exfalso. by apply (H s); [left|].
  - apply IH. intros s' Hs'. apply H. by right.
Qed.

(** ** The service reconciler *)

(** C6: when no service of the host has the given name, the module fails
    with the service-not-found message, and neither the host nor the call
    log has changed: nothing was issued before the check. *)
Theorem service_not_found_before_mutation (name state policy : string) (h : HostSystem) :
  (forall s, s ∈ serviceInfo_service h -> HostService.key s ≠ name) ->
  vmware_service.main name state policy h
  = (failed ("Could not find service " +:+ name +:+ " to manage"),
     {| host := h; calls := [] |}).
Proof.
  intros Hnone.
  unfold vmware_service.main, vmware_service.manage_service.
  run_py.
  by rewrite (filter_key_none _ _ Hnone).
Qed.

Lemma service_not_found_before_mutation_witness :
  vmware_service.main "vpxa" "running" "on" host_ssh
  = (failed "Could not find service vpxa to manage", {| host := host_ssh; calls := [] |}).
Proof.
  apply (service_not_found_before_mutation "vpxa" "running" "on" host_ssh).
  intros s Hs. repeat (apply elem_of_cons in Hs as [->|Hs]; [done|]).
  by apply elem_of_nil in Hs.
Defined.

(** C5: on a host whose service of the given name (the first entry of that
    key) is running, [stopped] issues exactly one stop call and reports a
    change; [running] issues no run-state call and, when the policy matches
    too, no call at all and no change; [restarted] issues exactly one
    restart call and reports a change whether the service runs or not. *)
Theorem service_three_way_state (name policy : string) (h : HostSystem)
    (service : HostService.t) (rest : list HostService.t) :
  filter (fun s => HostService.key s = name) (serviceInfo_service h) = service :: rest ->
  (HostService.running service = true ->
   exists w, vmware_service.main name "stopped" policy h = (exit_json true, w) /\
             run_state_calls (calls w) = [call_StopService name]) /\
  (HostService.running service = true ->
   (exists changed w, vmware_service.main name "running" policy h = (exit_json changed, w) /\
                      run_state_calls (calls w) = []) /\
   (policy = HostService.policy service ->
    vmware_service.main name "running" policy h
    = (exit_json false, {| host := h; calls := [] |}))) /\
  (exists w, vmware_service.main name "restarted" policy h = (exit_json true, w) /\
             run_state_calls (calls w) = [call_RestartService name]).
Proof.
  intros Hfound.
  unfold vmware_service.main, vmware_service.manage_service.
  run_py. rewrite Hfound. simpl.
  split; [|split].
  - intros ->. simpl. case_bool_decide; eexists; (split; [reflexivity|done]).
  - intros ->. simpl. case_bool_decide; (split; [by do 2 eexists|]); intros; done.
  - case_bool_decide; eexists; (split; [reflexivity|done]).
Qed.

Lemma service_three_way_state_witness :
  (exists w, vmware_service.main "TSM-SSH" "stopped" "on" host_ssh = (exit_json true, w) /\
             run_state_calls (calls w) = [call_StopService "TSM-SSH"]) /\
  vmware_service.main "TSM-SSH" "running" "on" host_ssh
  = (exit_json false, {| host := host_ssh; calls := [] |}) /\
  (exists w, vmware_service.main "TSM-SSH" "restarted" "on" host_ssh = (exit_json true, w) /\
             run_state_calls (calls w) = [call_RestartService "TSM-SSH"]).
Proof.
  destruct (service_three_way_state "TSM-SSH" "on" host_ssh
              (HostService.mk "TSM-SSH" true "on") [] eq_refl) as (Hstop & Hrun & Hrestart).
  split; [exact (Hstop eq_refl)|]. split; [|exact Hrestart].
  destruct (Hrun eq_refl) as [_ Hsame]. by apply Hsame.
Defined.

(** ** The advanced-setting reconciler *)

(** C2: on an option holding the integer 5 as a [long], the supplied string
    "5" issues no update and reports no change; the supplied string "6"
    issues exactly one update, carrying the integer 6, and reports a
    change. *)
Theorem long_option_coercion (option : string) (h : HostSystem) :
  advancedOption h !! vmware_advanced_setting.normalize_option option
  = Some (Py.Long 5) ->
  (exists w, vmware_advanced_setting.main option "5" h = (exit_json false, w) /\
             mutations (calls w) = [] /\ host w = h) /\
  (exists w, vmware_advanced_setting.main option "6" h = (exit_json true, w) /\
             mutations (calls w)
             = [call_UpdateOptions
                  [OptionValue.mk (vmware_advanced_setting.normalize_option option)
                                  (Py.Long 6)]] /\
             advancedOption (host w) !! vmware_advanced_setting.normalize_option option
             = Some (Py.Long 6)).
Proof.
  unfold vmware_advanced_setting.main.
  generalize (vmware_advanced_setting.normalize_option option). intros key Hstored.
  unfold vmware_advanced_setting.apply_setting, vmware_advanced_setting.long.
  run_py. rewrite Hstored. run_py.
  split; eexists; (split; [reflexivity|]); simpl; split; try done.
  apply lookup_insert_eq.
Qed.

Lemma long_option_coercion_witness :
  (exists w, vmware_advanced_setting.main "/UserVars/SuppressShellWarning" "5" host_ssh
             = (exit_json false, w) /\
             mutations (calls w) = [] /\ host w = host_ssh) /\
  (exists w, vmware_advanced_setting.main "/UserVars/SuppressShellWarning" "6" host_ssh
             = (exit_json true, w) /\
             mutations (calls w)
             = [call_UpdateOptions
                  [OptionValue.mk "UserVars.SuppressShellWarning" (Py.Long 6)]] /\
             advancedOption (host w) !! "UserVars.SuppressShellWarning"
             = Some (Py.Long 6)).
Proof.
  exact (long_option_coercion "/UserVars/SuppressShellWarning" host_ssh eq_refl).
Defined.

(** C2 on an option holding the integer 5 as a plain [int]: the module
    dispatches on the type name and has no branch for [int], so for "5" as
    for "6" it reports the failure of an unhandled type, having only queried
    the option. *)
Lemma int_option_unhandled :
  advancedOption host_int_five !! "Net.TcpipHeapSize" = Some (Py.Int 5) /\
  vmware_advanced_setting.main "/Net/TcpipHeapSize" "5" host_int_five
  = (failed "Unhandled value type int",
     {| host := host_int_five; calls := [call_QueryOptions "Net.TcpipHeapSize"] |}) /\
  vmware_advanced_setting.main "/Net/TcpipHeapSize" "6" host_int_five
  = (failed "Unhandled value type int",
     {| host := host_int_five; calls := [call_QueryOptions "Net.TcpipHeapSize"] |}).
Proof. split; [reflexivity|]. split; reflexivity. Qed.

(** Whatever string is supplied for an option that holds a boolean, the
    comparison of the boolean with the string finds them different, and the
    module submits the truth value of the string. *)
Lemma bool_option_always_updated (option value : string) (b : bool) (h : HostSystem) :
  advancedOption h !! vmware_advanced_setting.normalize_option option
  = Some (Py.Bool b) ->
  exists w, vmware_advanced_setting.main option value h = (exit_json true, w) /\
            mutations (calls w)
            = [call_UpdateOptions
                 [OptionValue.mk (vmware_advanced_setting.normalize_option option)
                                 (Py.Bool (Py.bool_of_str value))]].
Proof.
  unfold vmware_advanced_setting.main.
  generalize (vmware_advanced_setting.normalize_option option). intros key Hstored.
  unfold vmware_advanced_setting.apply_setting, vmware_advanced_setting.long.
  run_py. rewrite Hstored. run_py.
  destruct b; eexists; (split; [reflexivity|done]).
Qed.

(** C3: the option [Misc.LogToSerial] holds [True]; supplying "True", which
    denotes the stored boolean, still issues an update and reports a change,
    and supplying "false" submits [True]. *)
Theorem bool_option_compared_with_string :
  (exists w, vmware_advanced_setting.main "/Misc/LogToSerial" "True" host_ssh
             = (exit_json true, w) /\
             mutations (calls w)
             = [call_UpdateOptions [OptionValue.mk "Misc.LogToSerial" (Py.Bool true)]]) /\
  (exists w, vmware_advanced_setting.main "/Misc/LogToSerial" "false" host_ssh
             = (exit_json true, w) /\
             mutations (calls w)
             = [call_UpdateOptions [OptionValue.mk "Misc.LogToSerial" (Py.Bool true)]]).
Proof.
  split.
  - exact (bool_option_always_updated "/Misc/LogToSerial" "True" true host_ssh eq_refl).
  - exact (bool_option_always_updated "/Misc/LogToSerial" "false" true host_ssh eq_refl).
Qed.

(** ** The date-time reconciler *)



(** Case analysis on one comparison of the body. *)
Tactic Notation "case_on" open_constr(P) :=
  match goal with
  | |- context [@bool_decide P ?dec] => destruct (@bool_decide_reflect P dec)
  end.

Ltac split_py :=
  repeat (first [ case_bool_decide
                | match goal with
                  | |- context [HostService.running ?s] =>
                      destruct (HostService.running s) eqn:?
                  end ];
          run_py).






(** C8: the timezone step looks up a type name that the SDK does not have
    (the NTP step spells it [HostDateTimeConfig]), so with the SDK's names no
    run ever submits a timezone; a valid timezone that differs from the
    observed one ends in a failure report, the host's timezone unchanged. *)
Theorem valid_timezone_not_submitted :
  (forall ntp_servers ntpd_state timezone h,
     List.filter submits_timezone
       (calls (snd (vmware_datetime_config.main vmware_datetime_config.pyVmomi_vim
                      ntp_servers ntpd_state timezone h))) = []) /\
  (exists msg w,
     vmware_datetime_config.main vmware_datetime_config.pyVmomi_vim
       ["ntp-001.example.com"] "stopped" (Some "Europe/Amsterdam") host_ssh
     = (failed msg, w) /\
     mutations (calls w) = [] /\
     dateTimeInfo_timeZone_name (host w) = "UTC").
Proof.
  split.
  - intros ntp_servers ntpd_state timezone h.
    unfold vmware_datetime_config.main, vmware_datetime_config.configure_datetime,
      vmware_datetime_config.vim_getattr.
    change (bool_decide ("HostNtpConfig" ∈ vmware_datetime_config.pyVmomi_vim)) with true.
    change (bool_decide ("HostDateTimeConfig" ∈ vmware_datetime_config.pyVmomi_vim))
      with true.
    change (bool_decide ("HostDataTimeConfig" ∈ vmware_datetime_config.pyVmomi_vim))
      with false.
    run_py.
    case_on (dateTimeInfo_ntpConfig_server h ≠ ntp_servers); run_py.
    all: destruct (filter _ (serviceInfo_service h)) as [|ntpd rest]; run_py; [done|].
    all: destruct (vmware_datetime_config.requested timezone) as [tz|].
    all: split_py; try done.
    all: destruct (filter _ (availableTimeZones h)); run_py; done.
  - do 2 eexists. split; [vm_compute; reflexivity|]. by split.
Qed.

(** The daemon step on a host without the daemon, for any SDK namespace that
    has the two types of the NTP step. *)
Lemma missing_ntpd_any_sdk (vim ntp_servers : list string)
    (ntpd_state : string) (timezone : option string) (h : HostSystem) :
  "HostNtpConfig" ∈ vim -> "HostDateTimeConfig" ∈ vim ->
  (forall s, s ∈ serviceInfo_service h -> HostService.key s ≠ "ntpd") ->
  exists w,
    vmware_datetime_config.main vim ntp_servers ntpd_state timezone h
    = (failed "list index out of range", w) /\
    (dateTimeInfo_ntpConfig_server h ≠ ntp_servers ->
     calls w = [call_UpdateDateTimeConfig
                  {| ntpConfig := Some {| server := ntp_servers |}; timeZone := None |}] /\
     dateTimeInfo_ntpConfig_server (host w) = ntp_servers) /\
    (dateTimeInfo_ntpConfig_server h = ntp_servers ->
     w = {| host := h; calls := [] |}).
Proof.
  intros Hntp Hdt Hnone.
  unfold vmware_datetime_config.main, vmware_datetime_config.configure_datetime,
    vmware_datetime_config.vim_getattr.
  rewrite !(bool_decide_eq_true_2 _ Hntp), !(bool_decide_eq_true_2 _ Hdt).
  run_py.
  case_on (dateTimeInfo_ntpConfig_server h ≠ ntp_servers);
    run_py; rewrite (filter_key_none _ _ Hnone); run_py.
  all: eexists; (split; [reflexivity|]); simpl; split; intros; done.
Qed.

(** C10: on a host without an ntpd service the module ends in the failure
    report of the index error; when the desired NTP server list differs from
    the observed one, the update of the list has been issued by then and the
    host has taken it, and when it does not differ nothing was issued. *)
Theorem missing_ntpd_fails_after_ntp_update (ntp_servers : list string)
    (ntpd_state : string) (timezone : option string) (h : HostSystem) :
  (forall s, s ∈ serviceInfo_service h -> HostService.key s ≠ "ntpd") ->
  exists w,
    vmware_datetime_config.main vmware_datetime_config.pyVmomi_vim
      ntp_servers ntpd_state timezone h
    = (failed "list index out of range", w) /\
    (dateTimeInfo_ntpConfig_server h ≠ ntp_servers ->
     calls w = [call_UpdateDateTimeConfig
                  {| ntpConfig := Some {| server := ntp_servers |}; timeZone := None |}] /\
     dateTimeInfo_ntpConfig_server (host w) = ntp_servers) /\
    (dateTimeInfo_ntpConfig_server h = ntp_servers ->
     w = {| host := h; calls := [] |}).
Proof.
  apply missing_ntpd_any_sdk; [by left|right; by left].
Qed.

Lemma missing_ntpd_fails_after_ntp_update_witness :
  exists w,
    vmware_datetime_config.main vmware_datetime_config.pyVmomi_vim
      ["ntp-002.example.com"] "running" None host_no_ntpd
    = (failed "list index out of range", w) /\
    calls w = [call_UpdateDateTimeConfig
                 {| ntpConfig := Some {| server := ["ntp-002.example.com"] |};
                    timeZone := None |}] /\
    dateTimeInfo_ntpConfig_server (host w) = ["ntp-002.example.com"].
Proof.
  destruct (missing_ntpd_fails_after_ntp_update
              ["ntp-002.example.com"] "running" None host_no_ntpd)
    as (w & Hmain & Hdiffers & _).
  - intros s Hs. apply elem_of_cons in Hs as [->|Hs]; [done|].
    by apply elem_of_nil in Hs.
  - exists w. split; [exact Hmain|]. by apply Hdiffers.
Defined.

(** ** Running a reconciler twice *)

Ltac use_premises :=
  repeat match goal with
         | H : ?P -> _, H' : ?P |- _ => specialize (H H')
         end.

(** An update of the services of one key, seen through the selection of the
    services of that key. *)
Lemma filter_key_map (name : string) (f : HostService.t -> HostService.t)
    (l : list HostService.t) :
  (forall s, HostService.key (f s) = HostService.key s) ->
  filter (fun s => HostService.key s = name)
    (map (fun s => if bool_decide (HostService.key s = name) then f s else s) l)
  = map f (filter (fun s => HostService.key s = name) l).
Proof.
  intros Hkey. induction l as [|s l IH]; [done|].
  simpl. rewrite !filter_cons. case_bool_decide as Hs.
  - rewrite Hkey. destruct (decide (HostService.key s = name)); [|done].
    simpl. by rewrite IH.
  - destruct (decide (HostService.key s = name)); [done|]. apply IH.
Qed.

(** After a successful run of the service module for a run-state other than
    [restarted], the service is as desired. *)
Lemma manage_service_converges (name state policy : string) (h : HostSystem)
    (changed : bool) (w : World) :
  state ≠ "restarted" ->
  vmware_service.main name state policy h = (exit_json changed, w) ->
  exists service rest,
    filter (fun s => HostService.key s = name) (serviceInfo_service (host w))
    = service :: rest /\
    (state = "running" -> HostService.running service = true) /\
    (state = "stopped" -> HostService.running service = false) /\
    policy = HostService.policy service.
Proof.
  intros Hstate.
  unfold vmware_service.main, vmware_service.manage_service. run_py.
  destruct (filter _ (serviceInfo_service h)) as [|service rest] eqn:Hfound;
    run_py; [done|].
  split_py; try done.
  all: intros [= <- <-]; simpl.
  all: rewrite ?filter_key_map by done; rewrite Hfound; simpl.
  all: do 2 eexists; (split; [reflexivity|]); simpl.
  all: repeat split; intros; subst; try done.
  all: try by apply dec_stable.
Qed.

(** On a service that is as desired, the module issues nothing. *)
Lemma manage_service_settled (name state policy : string) (h : HostSystem)
    (service : HostService.t) (rest : list HostService.t) :
  state ≠ "restarted" ->
  filter (fun s => HostService.key s = name) (serviceInfo_service h) = service :: rest ->
  (state = "running" -> HostService.running service = true) ->
  (state = "stopped" -> HostService.running service = false) ->
  policy = HostService.policy service ->
  vmware_service.main name state policy h = (exit_json false, {| host := h; calls := [] |}).
Proof.
  intros Hstate Hfound Hrun Hstop Hpolicy.
  unfold vmware_service.main, vmware_service.manage_service. run_py.
  rewrite Hfound. run_py.
  split_py; try done.
  all: exfalso; use_premises; congruence.
Qed.

Lemma apply_setting_converges (key value : string) (h : HostSystem)
    (changed : bool) (w : World) :
  (forall b, advancedOption h !! key ≠ Some (Py.Bool b)) ->
  run_module (vmware_advanced_setting.apply_setting key value) (on_host h)
  = (exit_json changed, w) ->
  exists v, advancedOption (host w) !! key = Some v /\ holds_supplied value v.
Proof.
  intros Hbool.
  unfold vmware_advanced_setting.apply_setting, vmware_advanced_setting.long. run_py.
  destruct (advancedOption h !! key) as [[z|z|s|b|r|]|] eqn:Hstored; run_py; try done.
  - destruct (Py.long value) as [n|] eqn:Hlong; run_py; [|done].
    unfold Py.ne, Py.eq. simpl. destruct (Z.eqb_spec z n) as [->|Hzn]; run_py.
    + intros [= <- <-]. simpl. exists (Py.Long n). split; [done|]. left. by exists n.
    + intros [= <- <-]. simpl. exists (Py.Long n).
      split; [apply lookup_insert_eq|]. left. by exists n.
  - unfold Py.ne, Py.eq. simpl. case_bool_decide as Hs; run_py.
    + intros [= <- <-]. simpl. exists (Py.Str s). split; [done|]. right. by rewrite Hs.
    + intros [= <- <-]. simpl. exists (Py.Str value).
      split; [apply lookup_insert_eq|]. by right.
  - by destruct (Hbool b).
Qed.

Lemma apply_setting_settled (key value : string) (h : HostSystem) (v : Py.value) :
  advancedOption h !! key = Some v -> holds_supplied value v ->
  run_module (vmware_advanced_setting.apply_setting key value) (on_host h)
  = (exit_json false, {| host := h; calls := [call_QueryOptions key] |}).
Proof.
  intros Hstored [(n & Hlong & ->) | ->].
  - unfold vmware_advanced_setting.apply_setting, vmware_advanced_setting.long. run_py.
    rewrite Hstored, Hlong. run_py.
    unfold Py.ne, Py.eq. simpl. by rewrite Z.eqb_refl.
  - unfold vmware_advanced_setting.apply_setting. run_py.
    rewrite Hstored. run_py.
    unfold Py.ne, Py.eq. simpl. by rewrite bool_decide_eq_true_2.
Qed.

(** After a successful run of the date-time module for a run-state other
    than [restarted], servers, daemon and timezone are as desired. *)
Lemma configure_datetime_converges (vim ntp_servers : list string) (ntpd_state : string)
    (timezone : option string) (h : HostSystem) (changed : bool) (w : World) :
  ntpd_state ≠ "restarted" ->
  vmware_datetime_config.main vim ntp_servers ntpd_state timezone h
  = (exit_json changed, w) ->
  dateTimeInfo_ntpConfig_server (host w) = ntp_servers /\
  (exists ntpd rest,
     filter (fun s => HostService.key s = "ntpd") (serviceInfo_service (host w))
     = ntpd :: rest /\
     (ntpd_state = "running" -> HostService.running ntpd = true) /\
     (ntpd_state = "stopped" -> HostService.running ntpd = false)) /\
  (forall tz, vmware_datetime_config.requested timezone = Some tz ->
              dateTimeInfo_timeZone_name (host w) = tz).
Proof.
  intros Hstate.
  unfold vmware_datetime_config.main, vmware_datetime_config.configure_datetime,
    vmware_datetime_config.vim_getattr. run_py.
  case_on (dateTimeInfo_ntpConfig_server h ≠ ntp_servers); run_py.
  all: repeat (case_on (_ ∈ vim); run_py; try done).
  all: destruct (filter _ (serviceInfo_service h)) as [|ntpd rest] eqn:Hfound;
    run_py; [done|].
  all: destruct (vmware_datetime_config.requested timezone) as [tz|]; run_py.
  all: split_py; try done.
  all: try (destruct (filter _ (availableTimeZones h)); run_py; try done).
  all: try (case_on (_ ∈ vim); run_py; try done).
  all: intros [= <- <-]; simpl.
  all: rewrite ?filter_key_map by done; rewrite Hfound; simpl.
  all: try (exfalso; congruence).
  all: split; [first [done | by apply dec_stable]|].
  all: split; [do 2 eexists; (split; [reflexivity|]); simpl;
               split; intros; subst; first [done | congruence]|].
  all: intros tz' [= <-]; first [done | by apply dec_stable].
Qed.

Lemma configure_datetime_settled (vim ntp_servers : list string) (ntpd_state : string)
    (timezone : option string) (h : HostSystem) (ntpd : HostService.t)
    (rest : list HostService.t) :
  ntpd_state ≠ "restarted" ->
  dateTimeInfo_ntpConfig_server h = ntp_servers ->
  filter (fun s => HostService.key s = "ntpd") (serviceInfo_service h) = ntpd :: rest ->
  (ntpd_state = "running" -> HostService.running ntpd = true) ->
  (ntpd_state = "stopped" -> HostService.running ntpd = false) ->
  (forall tz, vmware_datetime_config.requested timezone = Some tz ->
              dateTimeInfo_timeZone_name h = tz) ->
  vmware_datetime_config.main vim ntp_servers ntpd_state timezone h
  = (exit_json false, {| host := h; calls := [] |}).
Proof.
  intros Hstate Hservers Hfound Hrun Hstop Htz.
  unfold vmware_datetime_config.main, vmware_datetime_config.configure_datetime. run_py.
  case_on (dateTimeInfo_ntpConfig_server h ≠ ntp_servers); run_py; [done|].
  rewrite Hfound. run_py.
  destruct (vmware_datetime_config.requested timezone) as [tz|]; run_py.
  all: split_py; try done.
  all: exfalso; try (specialize (Htz _ eq_refl)); use_premises; congruence.
Qed.

(** C1, as the code has it: for a desired run-state other than [restarted]
    and an option that does not hold a boolean, a run that ends with a
    verdict leaves the host such that a second run with the same desired
    state reports no change, issues no mutation and leaves the host as it
    is. *)
Theorem reconcile_twice (vim : list string) (d : Desired) (h : HostSystem)
    (changed : bool) (w : World) :
  no_restart d -> not_bool_option d h ->
  reconcile vim d h = (exit_json changed, w) ->
  exists w', reconcile vim d (host w) = (exit_json false, w') /\
             host w' = host w /\ mutations (calls w') = [].
Proof.
  destruct d as [name state policy|option value|ntp_servers ntpd_state timezone];
    simpl; intros Hstate Hbool Hfirst.
  - destruct (manage_service_converges _ _ _ _ _ _ Hstate Hfirst)
      as (service & rest & Hfound & Hrun & Hstop & Hpolicy).
    rewrite (manage_service_settled _ _ _ _ _ _ Hstate Hfound Hrun Hstop Hpolicy).
    by eexists.
  - destruct (apply_setting_converges _ _ _ _ _ Hbool Hfirst) as (v & Hstored & Hv).
    unfold vmware_advanced_setting.main.
    rewrite (apply_setting_settled _ _ _ _ Hstored Hv).
    by eexists.
  - destruct (configure_datetime_converges _ _ _ _ _ _ _ Hstate Hfirst)
      as (Hservers & (ntpd & rest & Hfound & Hrun & Hstop) & Htz).
    rewrite (configure_datetime_settled _ _ _ _ _ _ _ Hstate Hservers Hfound Hrun Hstop Htz).
    by eexists.
Qed.

Lemma reconcile_twice_witness :
  exists w w',
    reconcile vmware_datetime_config.pyVmomi_vim
      (datetime_config ["ntp-002.example.com"] "running" (Some "UTC")) host_ssh
    = (exit_json true, w) /\
    reconcile vmware_datetime_config.pyVmomi_vim
      (datetime_config ["ntp-002.example.com"] "running" (Some "UTC")) (host w)
    = (exit_json false, w') /\
    host w' = host w /\ mutations (calls w') = [].
Proof.
  pose (d := datetime_config ["ntp-002.example.com"] "running" (Some "UTC")).
  pose (w := snd (reconcile vmware_datetime_config.pyVmomi_vim d host_ssh)).
  assert (Hfirst : reconcile vmware_datetime_config.pyVmomi_vim d host_ssh
                   = (exit_json true, w)) by (vm_compute; reflexivity).
  assert (Hstate : no_restart d) by (simpl; done).
  destruct (reconcile_twice vmware_datetime_config.pyVmomi_vim d host_ssh true w
              Hstate I Hfirst) as (w' & Hsecond & Hhost & Hquiet).
  exists w, w'. by repeat split.
Defined.

(** C1, as the claim has it, fails: [restarted] restarts the service and
    reports a change on every run, the second as the first. *)
Lemma restarted_changes_every_run :
  exists w w',
    reconcile vmware_datetime_config.pyVmomi_vim
      (service_state "TSM-SSH" "restarted" "on") host_ssh = (exit_json true, w) /\
    reconcile vmware_datetime_config.pyVmomi_vim
      (service_state "TSM-SSH" "restarted" "on") (host w) = (exit_json true, w') /\
    mutations (calls w') = [call_RestartService "TSM-SSH"].
Proof.
  do 2 eexists. split; [vm_compute; reflexivity|].
  split; [vm_compute; reflexivity|]. reflexivity.
Qed.

(** ** Fact collection *)

Section NetworkFacts.

Import vmware_esxi_facts.

Lemma fold_insert_other {A} (key : A -> string) (entry : A -> fact) (xs : list A)
    (d : dict) (k : string) :
  k ∉ map key xs ->
  fold_left (fun d x => <[key x := entry x]> d) xs d !! k = d !! k.
Proof.
  revert d. induction xs as [|x xs IH]; intros d Hk; [done|].
  simpl. rewrite IH.
  - apply lookup_insert_ne. intros <-. apply Hk. by left.
  - intros Hin. apply Hk. by right.
Qed.

(** Whatever the keys, every object of the list has some entry. *)
Lemma collect_is_Some {A} (key : A -> string) (entry : A -> fact) (xs : list A) (x : A) :
  x ∈ xs -> is_Some (collect key entry xs !! key x).
Proof.
  intros Hin.
  assert (Hk : key x ∈ map key xs) by (apply list_elem_of_fmap; by exists x).
  revert Hk. generalize (key x). clear x Hin. intros k.
  unfold collect. generalize (∅ : dict).
  induction xs as [|y xs IH]; intros d Hk.
  - by apply elem_of_nil in Hk.
  - simpl. destruct (decide (k ∈ map key xs)) as [Hlater|Hlast]; [by apply IH|].
    rewrite fold_insert_other by done.
    apply elem_of_cons in Hk as [->|Hk]; [|done].
    rewrite lookup_insert_eq. by eexists.
Qed.

Lemma pnic_entry_without_speed (nic : PhysicalNic.t) :
  PhysicalNic.linkSpeed nic = None ->
  pnic_entry nic
  = {[ "driver" := PhysicalNic.driver nic; "mac" := PhysicalNic.mac nic;
       "pci" := PhysicalNic.pci nic ]}.
Proof. intros H. unfold pnic_entry, try_pass, attr_of. by rewrite H. Qed.

Lemma pnic_entry_with_speed (nic : PhysicalNic.t) (ls : PhysicalNic.LinkSpeedDuplex) :
  PhysicalNic.linkSpeed nic = Some ls ->
  pnic_entry nic
  = <["fullduplex" := PhysicalNic.duplex ls]>
      (<["speed" := PhysicalNic.speedMb ls]>
         {[ "driver" := PhysicalNic.driver nic; "mac" := PhysicalNic.mac nic;
            "pci" := PhysicalNic.pci nic ]}).
Proof. intros H. unfold pnic_entry, try_pass, attr_of. by rewrite H. Qed.

Lemma vnic_entry_without_ipv6 (nic : VirtualNic.t) (ip : IpConfig.t) :
  VirtualNic.ip (VirtualNic.spec nic) = Some ip ->
  ipv6_absent nic ->
  vnic_entry nic
  = inr {[ "portgroup" := VirtualNic.portgroup nic;
           "mac" := VirtualNic.mac (VirtualNic.spec nic);
           "mtu" := VirtualNic.mtu (VirtualNic.spec nic);
           "ipv4" := FDict {[ "address" := IpConfig.ipAddress ip;
                              "netmask" := IpConfig.subnetMask ip;
                              "dhcp" := IpConfig.dhcp ip ]} ]}.
Proof.
  unfold ipv6_absent, vnic_entry, try_pass, vnic_ipv6, attr_of. intros ->.
  destruct (IpConfig.ipV6Config _) as [c|]; [|done].
  by intros ->.
Qed.

Lemma vnic_entry_with_ipv6 (nic : VirtualNic.t) (ip : IpConfig.t) (c : IpV6Config.t)
    (a : IpV6Address.t) (rest : list IpV6Address.t) :
  VirtualNic.ip (VirtualNic.spec nic) = Some ip ->
  IpConfig.ipV6Config ip = Some c ->
  IpV6Config.ipV6Address c = a :: rest ->
  vnic_entry nic
  = inr (<["ipv6" := FDict {[ "address" := IpV6Address.ipAddress a;
                              "prefix" := IpV6Address.prefixLength a;
                              "autoconf" := IpV6Config.autoConfigurationEnabled c;
                              "dhcp" := IpV6Config.dhcpV6Enabled c ]}]>
           {[ "portgroup" := VirtualNic.portgroup nic;
              "mac" := VirtualNic.mac (VirtualNic.spec nic);
              "mtu" := VirtualNic.mtu (VirtualNic.spec nic);
              "ipv4" := FDict {[ "address" := IpConfig.ipAddress ip;
                                 "netmask" := IpConfig.subnetMask ip;
                                 "dhcp" := IpConfig.dhcp ip ]} ]}).
Proof.
  intros Hip Hc Ha. unfold vnic_entry, try_pass, vnic_ipv6, attr_of.
  rewrite Hip, Hc, Ha. by run_py.
Qed.

(** *** Loops whose body may raise *)

Lemma collect_from_returns {A} (key : A -> string) (entry : A -> exn + fact)
    (xs : list A) (d : dict) :
  Forall (fun x => exists v, entry x = inr v) xs ->
  exists r, collect_from key entry xs d = inr r.
Proof.
  revert d. induction xs as [|x xs IH]; intros d Hall; [by eexists|].
  apply Forall_cons in Hall as [[v Hv] Hall]. simpl. rewrite Hv. by apply IH.
Qed.

Lemma collect_from_raises {A} (key : A -> string) (entry : A -> exn + fact)
    (xs : list A) (d : dict) (e : exn) :
  (forall x e', entry x = inl e' -> e' = e) ->
  Exists (fun x => entry x = inl e) xs ->
  collect_from key entry xs d = inl e.
Proof.
  intros Hsame. revert d. induction xs as [|x xs IH]; intros d Hex.
  - by apply Exists_nil in Hex.
  - simpl. destruct (entry x) as [e'|v] eqn:Hx.
    + by rewrite (Hsame _ _ Hx).
    + apply Exists_cons in Hex as [Hex|Hex]; [congruence|by apply IH].
Qed.

Lemma collect_from_other {A} (key : A -> string) (entry : A -> exn + fact)
    (xs : list A) (d r : dict) (k : string) :
  collect_from key entry xs d = inr r ->
  k ∉ map key xs ->
  r !! k = d !! k.
Proof.
  revert d. induction xs as [|x xs IH]; intros d Hrun Hk.
  - by injection Hrun as <-.
  - simpl in Hrun. destruct (entry x) as [e|v]; [done|].
    rewrite (IH _ Hrun).
    + apply lookup_insert_ne. intros <-. apply Hk. by left.
    + intros Hin. apply Hk. by right.
Qed.

(** The entry at a key is that of the last object of the key. *)
Lemma collect_from_last {A} (key : A -> string) (entry : A -> exn + fact)
    (before after : list A) (x : A) (d r : dict) :
  collect_from key entry (before ++ x :: after)%list d = inr r ->
  key x ∉ map key after ->
  exists v, entry x = inr v /\ r !! key x = Some v.
Proof.
  revert d. induction before as [|y before IH]; intros d Hrun Hlast; simpl in Hrun.
  - destruct (entry x) as [e|v]; [done|]. exists v. split; [done|].
    rewrite (collect_from_other _ _ _ _ _ _ Hrun Hlast). apply lookup_insert_eq.
  - destruct (entry y) as [e|v]; [done|]. by apply (IH _ Hrun).
Qed.

(** Whatever the keys, every object of the list has some entry. *)
Lemma collect_from_is_Some {A} (key : A -> string) (entry : A -> exn + fact)
    (xs : list A) (d r : dict) (x : A) :
  collect_from key entry xs d = inr r ->
  x ∈ xs -> is_Some (r !! key x).
Proof.
  intros Hrun Hin.
  assert (Hk : key x ∈ map key xs) by (apply list_elem_of_fmap; by exists x).
  revert Hk. generalize (key x). clear x Hin. intros k. revert d Hrun.
  induction xs as [|y xs IH]; intros d Hrun Hk.
  - by apply elem_of_nil in Hk.
  - simpl in Hrun. destruct (entry y) as [e|v]; [done|].
    destruct (decide (k ∈ map key xs)) as [Hlater|Hlast]; [by apply (IH _ Hrun)|].
    rewrite (collect_from_other _ _ _ _ _ _ Hrun Hlast).
    apply elem_of_cons in Hk as [->|Hk]; [|done].
    rewrite lookup_insert_eq. by eexists.
Qed.

Lemma collect_from_dom {A} (key : A -> string) (entry : A -> exn + fact)
    (xs : list A) (d r : dict) :
  collect_from key entry xs d = inr r ->
  dom r = list_to_set (map key xs) ∪ dom d.
Proof.
  revert d. induction xs as [|x xs IH]; intros d Hrun; simpl in *.
  - injection Hrun as <-. by rewrite (left_id_L ∅ (∪)).
  - destruct (entry x) as [e|v]; [done|].
    rewrite (IH _ Hrun), dom_insert_L.
    by rewrite (assoc_L (∪)), (comm_L (∪) _ {[key x]}).
Qed.

Lemma vnics_return (h : HostSystem) :
  Forall (fun nic => is_Some (VirtualNic.ip (VirtualNic.spec nic))) (vnic (networkInfo h)) ->
  exists vnics,
    collect_from VirtualNic.device (fun nic => as_fact (vnic_entry nic))
      (vnic (networkInfo h)) ∅ = inr vnics.
Proof.
  intros Hip. apply collect_from_returns.
  eapply Forall_impl; [exact Hip|].
  intros nic [ip Hnic]. unfold vnic_entry. rewrite Hnic. by eexists.
Qed.

(** With an IP configuration on every virtual NIC the routine returns its
    five dictionaries. *)
Lemma network_facts_shape (h : HostSystem) :
  Forall (fun nic => is_Some (VirtualNic.ip (VirtualNic.spec nic))) (vnic (networkInfo h)) ->
  exists vnics,
    collect_from VirtualNic.device (fun nic => as_fact (vnic_entry nic))
      (vnic (networkInfo h)) ∅ = inr vnics /\
    get_network_facts h
    = inr {[ "pnics" := FDict (collect PhysicalNic.device
                                 (fun nic => FDict (pnic_entry nic))
                                 (pnic (networkInfo h)));
             "vnics" := FDict vnics;
             "portgroups" := FDict (collect PortGroup.key
                                      (fun pg => FDict (portgroup_entry pg))
                                      (portgroup (networkInfo h)));
             "vswitch" := FDict (collect Keyed.key
                (fun vsw => FDict (copy_attrs id (Keyed.attrs vsw)
                             ["name"; "numPorts"; "numPortsAvailable"; "mtu"] ∅))
                (vswitch (networkInfo h)));
             "proxySwitch" := FDict (collect Keyed.key
                (fun psw => FDict (copy_attrs id (Keyed.attrs psw)
                             ["dvsName"; "dvsUuid"; "numPorts"; "numPorts";
                              "configNumPorts"; "numPortsAvailable"; "mtu";
                              "networkReservationSupported"] ∅))
                (proxySwitch (networkInfo h))) ]}.
Proof.
  intros Hip. destruct (vnics_return h Hip) as [vnics Hvnics].
  exists vnics. split; [exact Hvnics|].
  unfold get_network_facts. by rewrite Hvnics.
Qed.

(** C9: on a host whose virtual NICs all have an IP configuration, the
    network routine returns, and every NIC of the two lists has an entry
    under its device name.  Where no later NIC of the list shares the name,
    the entry is the NIC's own: for a virtual NIC without IPv6 configuration
    it has port group, MAC, MTU and IPv4 fields and no [ipv6] key, for a
    physical NIC without link speed it has driver, MAC and PCI address and
    neither [speed] nor [fullduplex], and a NIC that carries the optional
    data has it reported.  Port groups and switches have their entries, and
    a run that collects the network category goes on to the categories
    after it. *)
Theorem network_facts_fault_isolation (h : HostSystem) :
  Forall (fun nic => is_Some (VirtualNic.ip (VirtualNic.spec nic))) (vnic (networkInfo h)) ->
  exists net pnics vnics portgroups vswitches proxySwitches,
    get_network_facts h = inr net /\
    net = {[ "pnics" := FDict pnics; "vnics" := FDict vnics;
             "portgroups" := FDict portgroups; "vswitch" := FDict vswitches;
             "proxySwitch" := FDict proxySwitches ]} /\
    (forall before after nic ip,
       vnic (networkInfo h) = (before ++ nic :: after)%list ->
       VirtualNic.device nic ∉ map VirtualNic.device after ->
       VirtualNic.ip (VirtualNic.spec nic) = Some ip ->
       ipv6_absent nic ->
       exists entry,
         vnics !! VirtualNic.device nic = Some (FDict entry) /\
         entry !! "portgroup" = Some (VirtualNic.portgroup nic) /\
         entry !! "mac" = Some (VirtualNic.mac (VirtualNic.spec nic)) /\
         entry !! "mtu" = Some (VirtualNic.mtu (VirtualNic.spec nic)) /\
         entry !! "ipv4"
         = Some (FDict {[ "address" := IpConfig.ipAddress ip;
                          "netmask" := IpConfig.subnetMask ip;
                          "dhcp" := IpConfig.dhcp ip ]}) /\
         entry !! "ipv6" = None) /\
    (forall before after nic,
       pnic (networkInfo h) = (before ++ nic :: after)%list ->
       PhysicalNic.device nic ∉ map PhysicalNic.device after ->
       PhysicalNic.linkSpeed nic = None ->
       exists entry,
         pnics !! PhysicalNic.device nic = Some (FDict entry) /\
         entry !! "driver" = Some (PhysicalNic.driver nic) /\
         entry !! "mac" = Some (PhysicalNic.mac nic) /\
         entry !! "pci" = Some (PhysicalNic.pci nic) /\
         entry !! "speed" = None /\ entry !! "fullduplex" = None) /\
    (forall nic, nic ∈ vnic (networkInfo h) -> is_Some (vnics !! VirtualNic.device nic)) /\
    (forall nic, nic ∈ pnic (networkInfo h) -> is_Some (pnics !! PhysicalNic.device nic)) /\
    (forall before after nic ip c a rest,
       vnic (networkInfo h) = (before ++ nic :: after)%list ->
       VirtualNic.device nic ∉ map VirtualNic.device after ->
       VirtualNic.ip (VirtualNic.spec nic) = Some ip ->
       IpConfig.ipV6Config ip = Some c ->
       IpV6Config.ipV6Address c = a :: rest ->
       exists entry,
         vnics !! VirtualNic.device nic = Some (FDict entry) /\
         entry !! "mtu" = Some (VirtualNic.mtu (VirtualNic.spec nic)) /\
         entry !! "ipv6"
         = Some (FDict {[ "address" := IpV6Address.ipAddress a;
                          "prefix" := IpV6Address.prefixLength a;
                          "autoconf" := IpV6Config.autoConfigurationEnabled c;
                          "dhcp" := IpV6Config.dhcpV6Enabled c ]})) /\
    (forall before after nic ls,
       pnic (networkInfo h) = (before ++ nic :: after)%list ->
       PhysicalNic.device nic ∉ map PhysicalNic.device after ->
       PhysicalNic.linkSpeed nic = Some ls ->
       exists entry,
         pnics !! PhysicalNic.device nic = Some (FDict entry) /\
         entry !! "driver" = Some (PhysicalNic.driver nic) /\
         entry !! "speed" = Some (PhysicalNic.speedMb ls) /\
         entry !! "fullduplex" = Some (PhysicalNic.duplex ls)) /\
    (forall pg, pg ∈ portgroup (networkInfo h) -> is_Some (portgroups !! PortGroup.key pg)) /\
    (forall sw, sw ∈ vswitch (networkInfo h) -> is_Some (vswitches !! Keyed.key sw)) /\
    (forall sw, sw ∈ proxySwitch (networkInfo h) -> is_Some (proxySwitches !! Keyed.key sw)) /\
    (forall bytes_to_human types facts,
       get_facts_from bytes_to_human h ("network" :: types) facts
       = get_facts_from bytes_to_human h types (<["network" := FDict net]> facts)).
Proof.
  intros Hip. destruct (network_facts_shape h Hip) as (vnics & Hvnics & Hnet).
  eexists. do 5 eexists. split; [exact Hnet|]. split; [reflexivity|].
  split.
  { intros before after nic ip Hlist Hlast Hnic Habsent. rewrite Hlist in Hvnics.
    destruct (collect_from_last _ _ _ _ _ _ _ Hvnics Hlast) as (v & Hv & Hlook).
    rewrite (vnic_entry_without_ipv6 _ _ Hnic Habsent) in Hv. injection Hv as <-.
    eexists. split; [exact Hlook|]. by repeat split. }
  split.
  { intros before after nic Hlist Hlast Habsent. exists (pnic_entry nic). split.
    - rewrite Hlist. unfold collect. rewrite fold_left_app. simpl.
      rewrite fold_insert_other by done. apply lookup_insert_eq.
    - rewrite (pnic_entry_without_speed _ Habsent). by repeat split. }
  split; [intros nic Hin; by apply (collect_from_is_Some _ _ _ _ _ _ Hvnics)|].
  split; [intros nic Hin; by apply (collect_is_Some PhysicalNic.device)|].
  split.
  { intros before after nic ip c a rest Hlist Hlast Hnic Hc Ha. rewrite Hlist in Hvnics.
    destruct (collect_from_last _ _ _ _ _ _ _ Hvnics Hlast) as (v & Hv & Hlook).
    rewrite (vnic_entry_with_ipv6 _ _ _ _ _ Hnic Hc Ha) in Hv. injection Hv as <-.
    eexists. split; [exact Hlook|]. split; [done|]. apply lookup_insert_eq. }
  split.
  { intros before after nic ls Hlist Hlast Hls. exists (pnic_entry nic). split.
    - rewrite Hlist. unfold collect. rewrite fold_left_app. simpl.
      rewrite fold_insert_other by done. apply lookup_insert_eq.
    - rewrite (pnic_entry_with_speed _ _ Hls). split; [done|].
      split; [|apply lookup_insert_eq].
      rewrite lookup_insert_ne by done. apply lookup_insert_eq. }
  split; [intros pg Hin; by apply (collect_is_Some PortGroup.key)|].
  split; [intros sw Hin; by apply (collect_is_Some Keyed.key)|].
  split; [intros sw Hin; by apply (collect_is_Some Keyed.key)|].
  intros bytes_to_human types facts. simpl. by rewrite Hnet.
Qed.

End NetworkFacts.

Lemma network_facts_fault_isolation_witness :
  exists net vnics pnics vmk0_entry vmk1_entry vmnic1_entry,
    vmware_esxi_facts.get_network_facts host_facts = inr net /\
    net !! "vnics" = Some (vmware_esxi_facts.FDict vnics) /\
    net !! "pnics" = Some (vmware_esxi_facts.FDict pnics) /\
    vnics !! "vmk1" = Some (vmware_esxi_facts.FDict vmk1_entry) /\
    vmk1_entry !! "mtu" = Some (vmware_esxi_facts.FInt 9000) /\
    vmk1_entry !! "ipv6" = None /\
    pnics !! "vmnic1" = Some (vmware_esxi_facts.FDict vmnic1_entry) /\
    vmnic1_entry !! "driver" = Some (vmware_esxi_facts.FStr "igb") /\
    vmnic1_entry !! "speed" = None /\
    vnics !! "vmk0" = Some (vmware_esxi_facts.FDict vmk0_entry) /\
    vmk0_entry !! "mtu" = Some (vmware_esxi_facts.FInt 1500) /\
    is_Some (vmk0_entry !! "ipv6") /\
    is_Some (pnics !! "vmnic0").
Proof.
  assert (Hip : Forall (fun nic => is_Some (vmware_esxi_facts.VirtualNic.ip
                                              (vmware_esxi_facts.VirtualNic.spec nic)))
                  [vmk0; vmk1]).
  { apply Forall_cons. split; [by eexists|].
    apply Forall_cons. split; [by eexists|]. apply Forall_nil_2. }
  destruct (network_facts_fault_isolation host_facts Hip)
    as (net & pnics & vnics & pgs & vsw & psw & Hnet & Hshape & Hv & Hp & _ & Hpall
        & Hv6 & _).
  assert (Hvmnic0 : vmnic0 ∈ [vmnic0; vmnic1]) by (by left).
  edestruct (Hv [vmk0] [] vmk1) as (vmk1_entry & Hk1 & _ & _ & Hmtu & _ & Hno6);
    [reflexivity|apply not_elem_of_nil|reflexivity|exact I|].
  destruct (Hp [vmnic0] [] vmnic1 eq_refl (not_elem_of_nil _) eq_refl)
    as (vmnic1_entry & Hn1 & Hdrv & _ & _ & Hnospeed & _).
  edestruct (Hv6 [] [vmk1] vmk0) as (vmk0_entry & Hk0 & Hmtu0 & H6);
    [reflexivity|apply not_elem_of_cons; split; [done|apply not_elem_of_nil]
    |reflexivity|reflexivity|reflexivity|].
  exists net, vnics, pnics, vmk0_entry, vmk1_entry, vmnic1_entry.
  split; [exact Hnet|]. rewrite Hshape.
  split; [reflexivity|]. split; [reflexivity|].
  split; [exact Hk1|]. split; [exact Hmtu|]. split; [exact Hno6|].
  split; [exact Hn1|]. split; [exact Hdrv|]. split; [exact Hnospeed|].
  split; [exact Hk0|]. split; [exact Hmtu0|].
  split; [by eexists|].
  exact (Hpall vmnic0 Hvmnic0).
Defined.

(** C9, the instances that refute it as stated: on a host with a virtual
    NIC whose specification has no IP configuration (and so no IPv6
    configuration) the network routine raises, no NIC is reported and a run
    for the network category or for all categories fails; and where two
    physical NICs are reported under one device name, the first without
    link speed, the entry under that name has a [speed] key. *)
Lemma vnic_without_ip_aborts_network_facts :
  vmware_esxi_facts.ipv6_absent vmk2 /\
  vmware_esxi_facts.vnic (vmware_esxi_facts.networkInfo host_vmk2) = [vmk0; vmk2; vmk1] /\
  vmware_esxi_facts.get_network_facts host_vmk2
  = inl (Exception "AttributeError" "'NoneType' object has no attribute 'ipAddress'") /\
  vmware_esxi_facts.main (fun size => size) "network" host_vmk2
  = vmware_esxi_facts.failed_facts "'NoneType' object has no attribute 'ipAddress'" /\
  vmware_esxi_facts.main (fun size => size) "all" host_vmk2
  = vmware_esxi_facts.failed_facts "'NoneType' object has no attribute 'ipAddress'" /\
  vmware_esxi_facts.pnic (vmware_esxi_facts.networkInfo host_mounts)
  = [vmnic1; vmnic0; vmnic1_up] /\
  vmware_esxi_facts.PhysicalNic.linkSpeed vmnic1 = None /\
  exists net pnics entry,
    vmware_esxi_facts.get_network_facts host_mounts = inr net /\
    net !! "pnics" = Some (vmware_esxi_facts.FDict pnics) /\
    pnics !! "vmnic1" = Some (vmware_esxi_facts.FDict entry) /\
    entry !! "speed" = Some (vmware_esxi_facts.FInt 100).
Proof.
  split; [exact I|]. split; [reflexivity|]. split; [reflexivity|].
  split; [reflexivity|]. split; [reflexivity|]. split; [reflexivity|].
  split; [reflexivity|].
  do 3 eexists. split; [reflexivity|]. split; [reflexivity|].
  split; [reflexivity|reflexivity].
Qed.

(** * Further properties of the modules *)

(** ** Option paths *)

Lemma replace_char_removes (p : string) :
  contains_char "/" (Py.replace_char "/" "." p) = false.
Proof.
  induction p as [|c p IH]; [done|]. simpl.
  destruct (Ascii.eqb c "/") eqn:E; simpl; [done|]. by rewrite E.
Qed.

Lemma replace_char_without (p : string) :
  contains_char "/" p = false -> Py.replace_char "/" "." p = p.
Proof.
  induction p as [|c p IH]; [done|]. simpl.
  destruct (Ascii.eqb c "/") eqn:E; simpl; [done|].
  intros H. by rewrite IH.
Qed.

Lemma sub_leading_slash_without (p : string) :
  contains_char "/" p = false -> Py.sub_leading_slash p = p.
Proof.
  destruct p as [|c p]; [done|]. simpl.
  destruct (Ascii.eqb c "/") eqn:E; simpl; [done|].
  intros _. apply sub_leading_slash_other. by apply Ascii.eqb_neq.
Qed.

(** X1: a normalized key holds no slash, whatever the input, and
    normalizing it again changes nothing. *)
Theorem normalize_option_no_slash_idempotent (option : string) :
  contains_char "/" (vmware_advanced_setting.normalize_option option) = false /\
  vmware_advanced_setting.normalize_option
    (vmware_advanced_setting.normalize_option option)
  = vmware_advanced_setting.normalize_option option.
Proof.
  assert (H : contains_char "/" (vmware_advanced_setting.normalize_option option) = false)
    by apply replace_char_removes.
  split; [exact H|].
  unfold vmware_advanced_setting.normalize_option at 1.
  by rewrite (sub_leading_slash_without _ H), (replace_char_without _ H).
Qed.

(** ** The advanced-setting reconciler, branch by branch *)

(** X2: on an option holding an integer, the supplied string is read as an
    integer before the comparison: any spelling of the stored integer is no
    change and issues no update, and any other integer is submitted as an
    integer in exactly one update. *)
Theorem long_option_compared_as_integer (option value : string) (h : HostSystem)
    (z n : Z) :
  advancedOption h !! vmware_advanced_setting.normalize_option option
  = Some (Py.Long z) ->
  Py.long value = Some n ->
  (z = n ->
   vmware_advanced_setting.main option value h
   = (exit_json false,
      {| host := h;
         calls := [call_QueryOptions (vmware_advanced_setting.normalize_option option)] |})) /\
  (z ≠ n ->
   exists w,
     vmware_advanced_setting.main option value h = (exit_json true, w) /\
     mutations (calls w)
     = [call_UpdateOptions
          [OptionValue.mk (vmware_advanced_setting.normalize_option option) (Py.Long n)]] /\
     advancedOption (host w)
     = <[vmware_advanced_setting.normalize_option option := Py.Long n]> (advancedOption h)).
Proof.
  unfold vmware_advanced_setting.main.
  generalize (vmware_advanced_setting.normalize_option option).
  intros key Hstored Hlong.
  unfold vmware_advanced_setting.apply_setting, vmware_advanced_setting.long.
  run_py. rewrite Hstored. run_py. rewrite Hlong. run_py.
  unfold Py.ne, Py.eq. simpl.
  split; intros Hzn.
  - subst z. by rewrite Z.eqb_refl.
  - apply Z.eqb_neq in Hzn. rewrite Hzn. simpl. by eexists.
Qed.

Lemma long_option_compared_as_integer_witness :
  vmware_advanced_setting.main "/UserVars/SuppressShellWarning" " 5L " host_ssh
  = (exit_json false,
     {| host := host_ssh; calls := [call_QueryOptions "UserVars.SuppressShellWarning"] |}) /\
  (exists w,
     vmware_advanced_setting.main "/UserVars/SuppressShellWarning" "+07" host_ssh
     = (exit_json true, w) /\
     mutations (calls w)
     = [call_UpdateOptions [OptionValue.mk "UserVars.SuppressShellWarning" (Py.Long 7)]] /\
     advancedOption (host w)
     = <["UserVars.SuppressShellWarning" := Py.Long 7]> (advancedOption host_ssh)).
Proof.
  split.
  - destruct (long_option_compared_as_integer "/UserVars/SuppressShellWarning" " 5L "
                host_ssh 5 5 eq_refl eq_refl) as [Hsame _].
    by apply Hsame.
  - destruct (long_option_compared_as_integer "/UserVars/SuppressShellWarning" "+07"
                host_ssh 5 7 eq_refl eq_refl) as [_ Hother].
    by apply Hother.
Defined.

(** X3: on an option holding an integer, a supplied string that [long]
    does not accept ends the run in a failure report carrying the message of
    the conversion error, and the option has only been queried.  For a string
    without a NUL byte the message is the fixed text followed by the [repr]
    of the first 200 bytes of the string. *)
Theorem long_option_rejects_text (option value : string) (h : HostSystem) (z : Z) :
  advancedOption h !! vmware_advanced_setting.normalize_option option
  = Some (Py.Long z) ->
  Py.long value = None ->
  vmware_advanced_setting.main option value h
  = (failed (Py.long_error value),
     {| host := h;
        calls := [call_QueryOptions (vmware_advanced_setting.normalize_option option)] |}) /\
  (Py.c_string (list_ascii_of_string value) = list_ascii_of_string value ->
   Py.long_error value
   = "invalid literal for long() with base 10: "
     +:+ Py.repr (string_of_list_ascii (firstn 200 (list_ascii_of_string value)))).
Proof.
  intros Hstored Hlong. split.
  - revert Hstored. unfold vmware_advanced_setting.main.
    generalize (vmware_advanced_setting.normalize_option option).
    intros key Hstored.
    unfold vmware_advanced_setting.apply_setting, vmware_advanced_setting.long.
    run_py. rewrite Hstored. run_py. by rewrite Hlong.
  - intros Hnul. revert Hlong. unfold Py.long, Py.long_error, Py.repr.
    rewrite Hnul, list_ascii_of_string_of_list_ascii.
    destruct (Py.parse_long (list_ascii_of_string value)); [|done].
    by rewrite Nat.eqb_refl.
Qed.

Lemma long_option_rejects_text_witness :
  (vmware_advanced_setting.main "/UserVars/SuppressShellWarning" "on" host_ssh
   = (failed "invalid literal for long() with base 10: 'on'",
      {| host := host_ssh; calls := [call_QueryOptions "UserVars.SuppressShellWarning"] |})) /\
  (vmware_advanced_setting.main "/UserVars/SuppressShellWarning" "it's" host_ssh
   = (failed (Py.long_error "it's"),
      {| host := host_ssh; calls := [call_QueryOptions "UserVars.SuppressShellWarning"] |})) /\
  Py.long_error "it's"
  = "invalid literal for long() with base 10: "
    +:+ String Py.double_quote ("it's" +:+ String Py.double_quote "").
Proof.
  split; [|split].
  - exact (proj1 (long_option_rejects_text "/UserVars/SuppressShellWarning" "on" host_ssh 5
                    eq_refl eq_refl)).
  - exact (proj1 (long_option_rejects_text "/UserVars/SuppressShellWarning" "it's" host_ssh 5
                    eq_refl eq_refl)).
  - exact (proj2 (long_option_rejects_text "/UserVars/SuppressShellWarning" "it's" host_ssh 5
                    eq_refl eq_refl) eq_refl).
Defined.

(** X4: on an option holding a string, the supplied string is compared as
    it is: the stored string is no change, any other string is submitted in
    exactly one update. *)
Theorem str_option_compared_directly (option value : string) (h : HostSystem)
    (s : string) :
  advancedOption h !! vmware_advanced_setting.normalize_option option
  = Some (Py.Str s) ->
  (s = value ->
   vmware_advanced_setting.main option value h
   = (exit_json false,
      {| host := h;
         calls := [call_QueryOptions (vmware_advanced_setting.normalize_option option)] |})) /\
  (s ≠ value ->
   exists w,
     vmware_advanced_setting.main option value h = (exit_json true, w) /\
     mutations (calls w)
     = [call_UpdateOptions
          [OptionValue.mk (vmware_advanced_setting.normalize_option option)
                          (Py.Str value)]] /\
     advancedOption (host w)
     = <[vmware_advanced_setting.normalize_option option := Py.Str value]>
         (advancedOption h)).
Proof.
  unfold vmware_advanced_setting.main.
  generalize (vmware_advanced_setting.normalize_option option).
  intros key Hstored.
  unfold vmware_advanced_setting.apply_setting.
  run_py. rewrite Hstored. run_py.
  unfold Py.ne, Py.eq. simpl.
  split; intros Hs.
  - by rewrite bool_decide_eq_true_2.
  - rewrite bool_decide_eq_false_2 by done. simpl. by eexists.
Qed.

Lemma str_option_compared_directly_witness :
  vmware_advanced_setting.main "/Syslog/global/logHost" "udp://loghost:514" host_ssh
  = (exit_json false,
     {| host := host_ssh; calls := [call_QueryOptions "Syslog.global.logHost"] |}) /\
  (exists w,
     vmware_advanced_setting.main "/Syslog/global/logHost" "5" host_ssh
     = (exit_json true, w) /\
     mutations (calls w)
     = [call_UpdateOptions [OptionValue.mk "Syslog.global.logHost" (Py.Str "5")]] /\
     advancedOption (host w)
     = <["Syslog.global.logHost" := Py.Str "5"]> (advancedOption host_ssh)).
Proof.
  destruct (str_option_compared_directly "/Syslog/global/logHost" "udp://loghost:514"
              host_ssh "udp://loghost:514" eq_refl) as [Hsame _].
  destruct (str_option_compared_directly "/Syslog/global/logHost" "5"
              host_ssh "udp://loghost:514" eq_refl) as [_ Hother].
  split; [by apply Hsame|by apply Hother].
Defined.

(** X5: an option whose value is neither an integer of type [long], nor a
    string, nor a boolean is refused with the name of its type, and nothing
    is submitted. *)
Theorem unhandled_option_type_refused (option value : string) (h : HostSystem)
    (v : Py.value) :
  advancedOption h !! vmware_advanced_setting.normalize_option option = Some v ->
  Py.type_name v ∉ ["long"; "str"; "bool"] ->
  vmware_advanced_setting.main option value h
  = (failed ("Unhandled value type " +:+ Py.type_name v),
     {| host := h;
        calls := [call_QueryOptions (vmware_advanced_setting.normalize_option option)] |}).
Proof.
  unfold vmware_advanced_setting.main.
  generalize (vmware_advanced_setting.normalize_option option).
  intros key Hstored Htype.
  unfold vmware_advanced_setting.apply_setting.
  run_py. rewrite Hstored. run_py.
  destruct v; simpl in *; try done.
  all: exfalso; apply Htype; set_solver.
Qed.

Lemma unhandled_option_type_refused_witness :
  vmware_advanced_setting.main "/Net/TcpipHeapSize" "32" host_int_option
  = (failed "Unhandled value type int",
     {| host := host_int_option; calls := [call_QueryOptions "Net.TcpipHeapSize"] |}).
Proof.
  apply (unhandled_option_type_refused "/Net/TcpipHeapSize" "32" host_int_option
           (Py.Int 0) eq_refl).
  intros Hin. repeat (apply elem_of_cons in Hin as [Hin|Hin]; [done|]).
  by apply elem_of_nil in Hin.
Defined.

(** ** The service reconciler, the remaining transitions *)

(** X8: on a host whose service of the given name is not running,
    [running] issues exactly one start call and reports a change, and
    [stopped] issues no run-state call and, when the policy matches too, no
    call at all. *)
Theorem service_start_when_stopped (name policy : string) (h : HostSystem)
    (service : HostService.t) (rest : list HostService.t) :
  filter (fun s => HostService.key s = name) (serviceInfo_service h) = service :: rest ->
  HostService.running service = false ->
  (exists w, vmware_service.main name "running" policy h = (exit_json true, w) /\
             run_state_calls (calls w) = [call_StartService name]) /\
  (exists changed w, vmware_service.main name "stopped" policy h = (exit_json changed, w) /\
                     run_state_calls (calls w) = []) /\
  (policy = HostService.policy service ->
   vmware_service.main name "stopped" policy h
   = (exit_json false, {| host := h; calls := [] |})).
Proof.
  intros Hfound Hstopped.
  unfold vmware_service.main, vmware_service.manage_service.
  run_py. rewrite Hfound. simpl. rewrite Hstopped. simpl.
  split; [|split].
  - case_bool_decide; eexists; (split; [reflexivity|done]).
  - case_bool_decide; by do 2 eexists.
  - intros ->. by rewrite bool_decide_eq_false_2 by (intros H; by apply H).
Qed.

Lemma service_start_when_stopped_witness :
  (exists w, vmware_service.main "ntpd" "running" "off" host_ssh = (exit_json true, w) /\
             run_state_calls (calls w) = [call_StartService "ntpd"]) /\
  vmware_service.main "ntpd" "stopped" "off" host_ssh
  = (exit_json false, {| host := host_ssh; calls := [] |}).
Proof.
  destruct (service_start_when_stopped "ntpd" "off" host_ssh
              (HostService.mk "ntpd" false "off") [] eq_refl eq_refl)
    as (Hstart & _ & Hquiet).
  split; [exact Hstart|by apply Hquiet].
Defined.

(** X9: the policy transition does not depend on the run-state: whatever
    state is asked for, the policy is updated exactly when it differs from
    the observed one, in one call issued after the run-state call, and a run
    whose policy differs always reports a change. *)
Theorem service_policy_independent (name state policy : string) (h : HostSystem)
    (service : HostService.t) (rest : list HostService.t) :
  filter (fun s => HostService.key s = name) (serviceInfo_service h) = service :: rest ->
  exists changed w,
    vmware_service.main name state policy h = (exit_json changed, w) /\
    (policy = HostService.policy service ->
     List.filter is_policy_call (calls w) = [] /\ calls w = run_state_calls (calls w)) /\
    (policy ≠ HostService.policy service ->
     changed = true /\
     calls w = (run_state_calls (calls w) ++ [call_UpdateServicePolicy name policy])%list).
Proof.
  intros Hfound.
  unfold vmware_service.main, vmware_service.manage_service.
  run_py. rewrite Hfound. simpl.
  split_py.
  all: do 2 eexists; (split; [reflexivity|]); simpl; split; intros; try done.
Qed.

Lemma service_policy_independent_witness :
  exists w,
    vmware_service.main "TSM-SSH" "stopped" "off" host_ssh = (exit_json true, w) /\
    calls w = [call_StopService "TSM-SSH"; call_UpdateServicePolicy "TSM-SSH" "off"].
Proof.
  destruct (service_policy_independent "TSM-SSH" "stopped" "off" host_ssh
              (HostService.mk "TSM-SSH" true "on") [] eq_refl)
    as (changed & w & Hrun & _ & Hdiffers).
  destruct Hdiffers as [-> Hcalls]; [done|].
  exists w. split; [exact Hrun|].
  rewrite Hcalls. revert Hrun. vm_compute. by intros [= <-].
Defined.

(** X11: after a run of the service module that ends with a verdict, the
    service is in the desired state: running for [running] and [restarted],
    not running for [stopped], and under the desired policy. *)
Theorem service_reaches_desired_state (name state policy : string) (h : HostSystem)
    (changed : bool) (w : World) :
  vmware_service.main name state policy h = (exit_json changed, w) ->
  exists service rest,
    filter (fun s => HostService.key s = name) (serviceInfo_service (host w))
    = service :: rest /\
    (state = "running" \/ state = "restarted" -> HostService.running service = true) /\
    (state = "stopped" -> HostService.running service = false) /\
    HostService.policy service = policy.
Proof.
  unfold vmware_service.main, vmware_service.manage_service. run_py.
  destruct (filter _ (serviceInfo_service h)) as [|service rest] eqn:Hfound;
    run_py; [done|].
  split_py.
  all: intros [= <- <-]; simpl.
  all: rewrite ?filter_key_map by done; rewrite Hfound; simpl.
  all: do 2 eexists; (split; [reflexivity|]); simpl.
  all: repeat split; try (intros [?|?]); intros; subst; try done.
  all: try (symmetry; by apply dec_stable).
Qed.

Lemma service_reaches_desired_state_witness :
  exists w service rest,
    vmware_service.main "ntpd" "restarted" "on" host_ssh = (exit_json true, w) /\
    filter (fun s => HostService.key s = "ntpd") (serviceInfo_service (host w))
    = service :: rest /\
    HostService.running service = true /\ HostService.policy service = "on".
Proof.
  pose (w := snd (vmware_service.main "ntpd" "restarted" "on" host_ssh)).
  assert (Hrun : vmware_service.main "ntpd" "restarted" "on" host_ssh = (exit_json true, w))
    by (vm_compute; reflexivity).
  destruct (service_reaches_desired_state "ntpd" "restarted" "on" host_ssh true w Hrun)
    as (service & rest & Hfound & Hrunning & _ & Hpolicy).
  exists w, service, rest. split; [exact Hrun|]. split; [exact Hfound|].
  split; [apply Hrunning; by right|exact Hpolicy].
Defined.

Lemma map_key_update (name : string) (f : HostService.t -> HostService.t)
    (l : list HostService.t) :
  (forall s, HostService.key (f s) = HostService.key s) ->
  map HostService.key
    (map (fun s => if bool_decide (HostService.key s = name) then f s else s) l)
  = map HostService.key l.
Proof.
  intros Hkey. induction l as [|s l IH]; [done|].
  simpl. rewrite IH. by case_bool_decide; [rewrite Hkey|].
Qed.

Lemma other_services_update (name : string) (f : HostService.t -> HostService.t)
    (l : list HostService.t) :
  (forall s, HostService.key (f s) = HostService.key s) ->
  other_services name
    (map (fun s => if bool_decide (HostService.key s = name) then f s else s) l)
  = other_services name l.
Proof.
  intros Hkey. unfold other_services. induction l as [|s l IH]; [done|].
  simpl. rewrite !filter_cons. case_bool_decide as Hs.
  - rewrite Hkey. destruct (decide (HostService.key s ≠ name)); [done|]. apply IH.
  - destruct (decide (HostService.key s ≠ name)); [|done]. by rewrite IH.
Qed.

(** X12: whatever its outcome, a run of the service module creates and
    removes no service, leaves the services of every other name, the options
    and the date-time configuration as they were, and issues at most two
    calls, each addressed to the given name. *)
Theorem service_touches_one_service (name state policy : string) (h : HostSystem) :
  map HostService.key
    (serviceInfo_service (host (snd (vmware_service.main name state policy h))))
  = map HostService.key (serviceInfo_service h) /\
  other_services name
    (serviceInfo_service (host (snd (vmware_service.main name state policy h))))
  = other_services name (serviceInfo_service h) /\
  advancedOption (host (snd (vmware_service.main name state policy h)))
  = advancedOption h /\
  dateTimeInfo_ntpConfig_server (host (snd (vmware_service.main name state policy h)))
  = dateTimeInfo_ntpConfig_server h /\
  dateTimeInfo_timeZone_name (host (snd (vmware_service.main name state policy h)))
  = dateTimeInfo_timeZone_name h /\
  Forall (fun c => call_key c = Some name)
    (calls (snd (vmware_service.main name state policy h))) /\
  (length (calls (snd (vmware_service.main name state policy h))) <= 2)%nat.
Proof.
  unfold vmware_service.main, vmware_service.manage_service. run_py.
  destruct (filter _ (serviceInfo_service h)) as [|service rest]; run_py.
  - repeat split; [constructor|lia].
  - split_py.
    all: rewrite ?map_key_update, ?other_services_update by done.
    all: repeat split; try lia; repeat constructor.
Qed.

(** ** The date-time reconciler, step by step *)

(** X13: the run-state step of the date-time module is that of the service
    module at the key [ntpd]: on the same host and for the same desired
    state both issue the same run-state calls, whatever the NTP servers, the
    timezone and the policy asked for. *)
Theorem datetime_run_state_as_service (vim ntp_servers : list string)
    (ntpd_state policy : string) (timezone : option string) (h : HostSystem) :
  "HostNtpConfig" ∈ vim -> "HostDateTimeConfig" ∈ vim ->
  run_state_calls
    (calls (snd (vmware_datetime_config.main vim ntp_servers ntpd_state timezone h)))
  = run_state_calls (calls (snd (vmware_service.main "ntpd" ntpd_state policy h))).
Proof.
  intros Hntp Hdt.
  unfold vmware_datetime_config.main, vmware_datetime_config.configure_datetime,
    vmware_datetime_config.vim_getattr, vmware_service.main,
    vmware_service.manage_service.
  rewrite !(bool_decide_eq_true_2 _ Hntp), !(bool_decide_eq_true_2 _ Hdt).
  run_py.
  case_on (dateTimeInfo_ntpConfig_server h ≠ ntp_servers); run_py.
  all: destruct (filter _ (serviceInfo_service h)) as [|ntpd rest]; run_py; [done|].
  all: destruct (vmware_datetime_config.requested timezone) as [tz|]; run_py.
  all: split_py; try done.
  all: try (destruct (filter _ (availableTimeZones h)); run_py; try done).
  all: try (case_on (_ ∈ vim); run_py; done).
Qed.

Lemma datetime_run_state_as_service_witness :
  run_state_calls
    (calls (snd (vmware_datetime_config.main vmware_datetime_config.pyVmomi_vim
                   ["ntp-002.example.com"] "running" (Some "Mars/Olympus") host_ssh)))
  = run_state_calls (calls (snd (vmware_service.main "ntpd" "running" "automatic" host_ssh))).
Proof.
  apply (datetime_run_state_as_service vmware_datetime_config.pyVmomi_vim
           ["ntp-002.example.com"] "running" "automatic" (Some "Mars/Olympus") host_ssh).
  - by left.
  - right; by left.
Defined.

(** X14: the NTP servers are compared as a sequence and submitted first:
    when the desired list is not literally the observed one (a reordering
    included), the first call of the run submits the desired list and
    nothing else, and no other call submits servers; when it is, no call
    does.  Whatever happens in the later steps, the host ends with the
    desired list. *)
Theorem ntp_servers_submitted_first (vim ntp_servers : list string)
    (ntpd_state : string) (timezone : option string) (h : HostSystem) :
  "HostNtpConfig" ∈ vim -> "HostDateTimeConfig" ∈ vim ->
  dateTimeInfo_ntpConfig_server
    (host (snd (vmware_datetime_config.main vim ntp_servers ntpd_state timezone h)))
  = ntp_servers /\
  (dateTimeInfo_ntpConfig_server h = ntp_servers ->
   List.filter submits_servers
     (calls (snd (vmware_datetime_config.main vim ntp_servers ntpd_state timezone h)))
   = []) /\
  (dateTimeInfo_ntpConfig_server h ≠ ntp_servers ->
   exists later,
     calls (snd (vmware_datetime_config.main vim ntp_servers ntpd_state timezone h))
     = call_UpdateDateTimeConfig
         {| ntpConfig := Some {| server := ntp_servers |}; timeZone := None |} :: later /\
     List.filter submits_servers later = []).
Proof.
  intros Hntp Hdt.
  unfold vmware_datetime_config.main, vmware_datetime_config.configure_datetime,
    vmware_datetime_config.vim_getattr.
  rewrite !(bool_decide_eq_true_2 _ Hntp), !(bool_decide_eq_true_2 _ Hdt).
  run_py.
  case_on (dateTimeInfo_ntpConfig_server h ≠ ntp_servers); run_py.
  all: destruct (filter _ (serviceInfo_service h)) as [|ntpd rest]; run_py.
  all: try (destruct (vmware_datetime_config.requested timezone) as [tz|]; run_py).
  all: split_py.
  all: try (destruct (filter _ (availableTimeZones h)); run_py).
  all: try (case_on (_ ∈ vim); run_py).
  all: split; [first [done | by apply dec_stable]|].
  all: split; intros; try done.
  all: by eexists.
Qed.

Lemma ntp_servers_submitted_first_witness :
  exists later,
    calls (snd (vmware_datetime_config.main vmware_datetime_config.pyVmomi_vim
                  ["ntp-002.example.com"; "ntp-001.example.com"] "running" None
                  host_two_servers))
    = call_UpdateDateTimeConfig
        {| ntpConfig :=
             Some {| server := ["ntp-002.example.com"; "ntp-001.example.com"] |};
           timeZone := None |} :: later /\
    List.filter submits_servers later = [].
Proof.
  assert (Hntp : "HostNtpConfig" ∈ vmware_datetime_config.pyVmomi_vim) by (by left).
  assert (Hdt : "HostDateTimeConfig" ∈ vmware_datetime_config.pyVmomi_vim)
    by (right; by left).
  destruct (ntp_servers_submitted_first vmware_datetime_config.pyVmomi_vim
              ["ntp-002.example.com"; "ntp-001.example.com"] "running" None
              host_two_servers Hntp Hdt) as (_ & _ & Hdiffers).
  by apply Hdiffers.
Defined.

Lemma map_policy_running (name : string) (r : bool) (l : list HostService.t) :
  map HostService.policy
    (map (fun s => if bool_decide (HostService.key s = name)
                   then HostService.mk (HostService.key s) r (HostService.policy s)
                   else s) l)
  = map HostService.policy l.
Proof.
  induction l as [|s l IH]; [done|].
  simpl. rewrite IH. by case_bool_decide.
Qed.

(** X15: whatever its outcome and whatever the SDK resolves, a run of the
    date-time module creates and removes no service, changes no policy,
    leaves the services of every other name than [ntpd], the options and the
    list of valid timezones as they were. *)
Theorem datetime_touches_ntpd_only (vim ntp_servers : list string)
    (ntpd_state : string) (timezone : option string) (h : HostSystem) :
  map HostService.key
    (serviceInfo_service
       (host (snd (vmware_datetime_config.main vim ntp_servers ntpd_state timezone h))))
  = map HostService.key (serviceInfo_service h) /\
  map HostService.policy
    (serviceInfo_service
       (host (snd (vmware_datetime_config.main vim ntp_servers ntpd_state timezone h))))
  = map HostService.policy (serviceInfo_service h) /\
  other_services "ntpd"
    (serviceInfo_service
       (host (snd (vmware_datetime_config.main vim ntp_servers ntpd_state timezone h))))
  = other_services "ntpd" (serviceInfo_service h) /\
  advancedOption
    (host (snd (vmware_datetime_config.main vim ntp_servers ntpd_state timezone h)))
  = advancedOption h /\
  availableTimeZones
    (host (snd (vmware_datetime_config.main vim ntp_servers ntpd_state timezone h)))
  = availableTimeZones h.
Proof.
  unfold vmware_datetime_config.main, vmware_datetime_config.configure_datetime,
    vmware_datetime_config.vim_getattr.
  run_py.
  case_on (dateTimeInfo_ntpConfig_server h ≠ ntp_servers); run_py.
  all: repeat (case_on (_ ∈ vim); run_py; try done).
  all: destruct (filter _ (serviceInfo_service h)) as [|ntpd rest]; run_py; try done.
  all: destruct (vmware_datetime_config.requested timezone) as [tz|]; run_py.
  all: split_py.
  all: try (destruct (filter _ (availableTimeZones h)); run_py).
  all: try (case_on (_ ∈ vim); run_py).
  all: rewrite ?map_key_update, ?other_services_update, ?map_policy_running by done.
  all: done.
Qed.

(** ** The verdict and the calls *)

(** X17: for each of the three mutating modules, a run that ends with a
    verdict reports a change exactly when it has issued a mutation call. *)
Theorem changed_iff_mutation (vim : list string) (d : Desired) (h : HostSystem)
    (changed : bool) (w : World) :
  reconcile vim d h = (exit_json changed, w) ->
  (changed = true <-> mutations (calls w) ≠ []).
Proof.
  destruct d as [name state policy|option value|ntp_servers ntpd_state timezone]; simpl.
  - unfold vmware_service.main, vmware_service.manage_service. run_py.
    destruct (filter _ (serviceInfo_service h)) as [|service rest]; run_py; [done|].
    split_py.
    all: intros [= <- <-]; simpl; split; intros; done.
  - unfold vmware_advanced_setting.main.
    generalize (vmware_advanced_setting.normalize_option option). intros key.
    unfold vmware_advanced_setting.apply_setting, vmware_advanced_setting.long.
    run_py.
    destruct (advancedOption h !! key) as [[z|z|s|b|r|]|]; run_py; try done.
    + destruct (Py.long value) as [n|]; run_py; [|done].
      destruct (Py.ne _ _); run_py; intros [= <- <-]; simpl; split; intros; done.
    + destruct (Py.ne _ _); run_py; intros [= <- <-]; simpl; split; intros; done.
    + unfold Py.ne, Py.eq. destruct b; simpl; intros [= <- <-]; simpl; split; intros; done.
  - unfold vmware_datetime_config.main, vmware_datetime_config.configure_datetime,
      vmware_datetime_config.vim_getattr. run_py.
    case_on (dateTimeInfo_ntpConfig_server h ≠ ntp_servers); run_py.
    all: repeat (case_on (_ ∈ vim); run_py; try done).
    all: destruct (filter _ (serviceInfo_service h)) as [|ntpd rest]; run_py; [done|].
    all: destruct (vmware_datetime_config.requested timezone) as [tz|]; run_py.
    all: split_py; try done.
    all: try (destruct (filter _ (availableTimeZones h)); run_py; try done).
    all: try (case_on (_ ∈ vim); run_py; try done).
    all: intros [= <- <-]; simpl; split; intros; done.
Qed.

Lemma changed_iff_mutation_witness :
  exists w,
    reconcile vmware_datetime_config.pyVmomi_vim
      (service_state "TSM-SSH" "running" "automatic") host_ssh = (exit_json true, w) /\
    (true = true <-> mutations (calls w) ≠ []).
Proof.
  pose (d := service_state "TSM-SSH" "running" "automatic").
  pose (w := snd (reconcile vmware_datetime_config.pyVmomi_vim d host_ssh)).
  assert (Hrun : reconcile vmware_datetime_config.pyVmomi_vim d host_ssh
                 = (exit_json true, w)) by (vm_compute; reflexivity).
  exists w. split; [exact Hrun|].
  exact (changed_iff_mutation vmware_datetime_config.pyVmomi_vim d host_ssh true w Hrun).
Defined.

(** ** Fact collection, category by category *)

Section MoreFacts.

Import vmware_esxi_facts.

Lemma copy_attrs_lookup (f : fact -> fact) (o : DataObject) (attrs : list string)
    (d : dict) (k : string) :
  copy_attrs f o attrs d !! k
  = if decide (k ∈ attrs) then Some (f (getattr o k)) else d !! k.
Proof.
  unfold copy_attrs. revert d.
  induction attrs as [|a attrs IH]; intros d; simpl.
  - destruct (decide (k ∈ [])) as [Hin|_]; [|done]. by apply elem_of_nil in Hin.
  - rewrite IH. destruct (decide (k ∈ attrs)) as [Hin|Hout].
    + rewrite decide_True by (by right). done.
    + destruct (decide (k = a)) as [->|Hne].
      * rewrite decide_True by (by left). apply lookup_insert_eq.
      * rewrite decide_False.
        -- by apply lookup_insert_ne.
        -- intros Hin. by apply elem_of_cons in Hin as [?|?].
Qed.

(** The entry at a key is that of the last object of the key. *)
Lemma collect_last {A} (key : A -> string) (entry : A -> fact)
    (before after : list A) (x : A) :
  key x ∉ map key after ->
  collect key entry (before ++ x :: after)%list !! key x = Some (entry x).
Proof.
  intros Hlast. unfold collect. rewrite fold_left_app. simpl.
  rewrite fold_insert_other by done. apply lookup_insert_eq.
Qed.

Lemma fold_insert_dom {A} (key : A -> string) (entry : A -> fact) (xs : list A)
    (d : dict) :
  dom (fold_left (fun d x => <[key x := entry x]> d) xs d)
  = list_to_set (map key xs) ∪ dom d.
Proof.
  revert d. induction xs as [|x xs IH]; intros d; simpl.
  - by rewrite (left_id_L ∅ (∪)).
  - rewrite IH, dom_insert_L.
    by rewrite (assoc_L (∪)), (comm_L (∪) _ {[key x]}).
Qed.

(** The keys of a collected dictionary are the keys of the objects. *)
Lemma collect_dom {A} (key : A -> string) (entry : A -> fact) (xs : list A) :
  dom (collect key entry xs) = list_to_set (map key xs).
Proof.
  unfold collect. rewrite fold_insert_dom, dom_empty_L. apply (right_id_L ∅ (∪)).
Qed.

(** X18: the system category holds the fourteen attributes of the product
    information, each with the value the host reports, and nothing else. *)
Theorem system_facts_verbatim (h : HostSystem) (attr : string) :
  get_system_facts h !! attr
  = if decide (attr ∈ ["name"; "fullName"; "vendor"; "version"; "build";
                       "localeVersion"; "localeBuild"; "osType"; "productLineId";
                       "apiType"; "apiVersion"; "instanceUuid";
                       "licenseProductName"; "licenseProductVersion"])
    then Some (getattr (config_product h) attr)
    else None.
Proof. unfold get_system_facts. by rewrite copy_attrs_lookup. Qed.

(** X19: the hardware category reports the memory size under
    [total_memory], in human-readable form, and not under its own name; the
    ten other attributes of the hardware summary are reported as they are,
    and nothing else is. *)
Theorem hardware_facts_memory (bytes_to_human : fact -> fact) (h : HostSystem)
    (attr : string) :
  get_hardware_facts bytes_to_human h !! attr
  = if decide (attr ∈ ["vendor"; "model"; "uuid"; "cpuModel"; "cpuMhz";
                       "numCpuPkgs"; "numCpuCores"; "numCpuThreads"; "numNics";
                       "numHBAs"])
    then Some (getattr (summary_hardware h) attr)
    else if decide (attr = "total_memory")
         then Some (bytes_to_human (getattr (summary_hardware h) "memorySize"))
         else None.
Proof.
  unfold get_hardware_facts. rewrite copy_attrs_lookup.
  destruct (decide (attr ∈ _)); [done|].
  destruct (decide (attr = "total_memory")) as [->|Hne].
  - apply lookup_insert_eq.
  - by rewrite lookup_insert_ne.
Qed.

Lemma humanize_set (bytes_to_human : fact -> fact) (size : fact) :
  size ≠ FNone -> humanize bytes_to_human size = inr (bytes_to_human size).
Proof. by destruct size. Qed.

Lemma datastore_entry_sized (bytes_to_human : fact -> fact) (ds : Datastore.t) :
  (forall attr, attr ∈ ["freeSpace"; "maxFileSize"; "maxVirtualDiskCapacity"] ->
     getattr (Datastore.info ds) attr ≠ FNone) ->
  datastore_entry bytes_to_human ds
  = inr (copy_attrs bytes_to_human (Datastore.info ds)
           ["freeSpace"; "maxFileSize"; "maxVirtualDiskCapacity"]
           (copy_attrs id (Datastore.info ds) ["url"; "containerId"; "timestamp"] ∅)).
Proof.
  intros Hset. unfold datastore_entry. simpl.
  rewrite !humanize_set by (apply Hset; repeat constructor). reflexivity.
Qed.

Lemma datastore_entry_unset (bytes_to_human : fact -> fact) (ds : Datastore.t) :
  (exists attr, attr ∈ ["freeSpace"; "maxFileSize"; "maxVirtualDiskCapacity"] /\
                getattr (Datastore.info ds) attr = FNone) ->
  datastore_entry bytes_to_human ds
  = inl (Exception "TypeError" "float() argument must be a string or a number").
Proof.
  intros (attr & Hin & Hunset). unfold datastore_entry. simpl.
  destruct (getattr (Datastore.info ds) "freeSpace") eqn:H1; simpl; try done;
    destruct (getattr (Datastore.info ds) "maxFileSize") eqn:H2; simpl; try done;
    destruct (getattr (Datastore.info ds) "maxVirtualDiskCapacity") eqn:H3; simpl;
    try done;
    repeat (apply elem_of_cons in Hin as [->|Hin]; [congruence|]);
    by apply elem_of_nil in Hin.
Qed.

Lemma datastore_entry_raises (bytes_to_human : fact -> fact) (ds : Datastore.t) (e : exn) :
  as_fact (datastore_entry bytes_to_human ds) = inl e ->
  e = Exception "TypeError" "float() argument must be a string or a number".
Proof.
  unfold datastore_entry. simpl.
  destruct (getattr (Datastore.info ds) "freeSpace"); simpl; try congruence;
    destruct (getattr (Datastore.info ds) "maxFileSize"); simpl; try congruence;
    destruct (getattr (Datastore.info ds) "maxVirtualDiskCapacity"); simpl; congruence.
Qed.

(** X20: on a host whose datastores all report their three sizes, the
    datastore routine returns one entry per datastore name; a datastore that
    no later datastore of the list shares its name with has its own entry
    there, with the URL, the container id and the timestamp as the host
    reports them, the three sizes in human-readable form, and nothing else.
    On a host with a datastore that leaves one of the sizes unset the
    routine raises the [TypeError] of the size conversion, and a run for the
    datastore category fails with its message. *)
Theorem datastore_facts_entry (bytes_to_human : fact -> fact) (h : HostSystem) :
  (Forall (fun ds => forall attr,
             attr ∈ ["freeSpace"; "maxFileSize"; "maxVirtualDiskCapacity"] ->
             getattr (Datastore.info ds) attr ≠ FNone) (datastore h) ->
   exists facts,
     get_datastore_facts bytes_to_human h = inr facts /\
     dom facts = list_to_set (map Datastore.name (datastore h)) /\
     forall before after ds,
       datastore h = (before ++ ds :: after)%list ->
       Datastore.name ds ∉ map Datastore.name after ->
       exists entry,
         facts !! Datastore.name ds = Some (FDict entry) /\
         forall attr,
           entry !! attr
           = if decide (attr ∈ ["freeSpace"; "maxFileSize"; "maxVirtualDiskCapacity"])
             then Some (bytes_to_human (getattr (Datastore.info ds) attr))
             else if decide (attr ∈ ["url"; "containerId"; "timestamp"])
                  then Some (getattr (Datastore.info ds) attr)
                  else None) /\
  (Exists (fun ds => exists attr,
             attr ∈ ["freeSpace"; "maxFileSize"; "maxVirtualDiskCapacity"] /\
             getattr (Datastore.info ds) attr = FNone) (datastore h) ->
   get_datastore_facts bytes_to_human h
   = inl (Exception "TypeError" "float() argument must be a string or a number") /\
   main bytes_to_human "datastore" h
   = failed_facts "float() argument must be a string or a number").
Proof.
  split.
  - intros Hsized.
    destruct (collect_from_returns Datastore.name
                (fun ds => as_fact (datastore_entry bytes_to_human ds)) (datastore h) ∅)
      as [facts Hfacts].
    { eapply Forall_impl; [exact Hsized|]. intros ds Hds. simpl.
      rewrite (datastore_entry_sized _ _ Hds). by eexists. }
    exists facts. split; [exact Hfacts|]. split.
    + rewrite (collect_from_dom _ _ _ _ _ Hfacts), dom_empty_L.
      apply (right_id_L ∅ (∪)).
    + intros before after ds Hlist Hlast.
      assert (Hds : forall attr,
                 attr ∈ ["freeSpace"; "maxFileSize"; "maxVirtualDiskCapacity"] ->
                 getattr (Datastore.info ds) attr ≠ FNone).
      { rewrite Hlist in Hsized. apply Forall_app in Hsized as [_ Hsized].
        by apply Forall_cons in Hsized as [Hds _]. }
      unfold get_datastore_facts in Hfacts. rewrite Hlist in Hfacts.
      destruct (collect_from_last _ _ _ _ _ _ _ Hfacts Hlast) as (v & Hv & Hlook).
      rewrite (datastore_entry_sized _ _ Hds) in Hv. cbn [as_fact] in Hv.
      exists (copy_attrs bytes_to_human (Datastore.info ds)
                ["freeSpace"; "maxFileSize"; "maxVirtualDiskCapacity"]
                (copy_attrs id (Datastore.info ds) ["url"; "containerId"; "timestamp"] ∅)).
      split; [rewrite Hlook; congruence|].
      intros attr. rewrite !copy_attrs_lookup.
      destruct (decide (attr ∈ ["freeSpace"; _; _])); [done|].
      by destruct (decide (attr ∈ ["url"; _; _])).
  - intros Hunset.
    assert (Hraise : get_datastore_facts bytes_to_human h
                     = inl (Exception "TypeError"
                              "float() argument must be a string or a number")).
    { apply collect_from_raises; [apply datastore_entry_raises|].
      eapply Exists_impl; [exact Hunset|].
      intros ds Hds. simpl. by rewrite (datastore_entry_unset _ _ Hds). }
    split; [exact Hraise|].
    unfold main, get_facts. simpl. by rewrite Hraise.
Qed.

Lemma datastore_facts_entry_witness :
  (exists facts entry,
     get_datastore_facts (fun size => FList [size; FStr "B"]) host_datastore2 = inr facts /\
     facts !! "datastore2" = Some (FDict entry) /\
     entry !! "freeSpace" = Some (FList [FInt 2048; FStr "B"]) /\
     entry !! "maxVirtualDiskCapacity" = Some (FList [FInt 8192; FStr "B"]) /\
     entry !! "url" = Some (FStr "/vmfs/volumes/6a1d") /\
     entry !! "timestamp" = Some FNone /\
     entry !! "name" = None) /\
  main (fun size => FList [size; FStr "B"]) "datastore" host_facts
  = failed_facts "float() argument must be a string or a number".
Proof.
  split.
  - destruct (datastore_facts_entry (fun size => FList [size; FStr "B"]) host_datastore2)
      as [Hsized _].
    destruct Hsized as (facts & Hfacts & _ & Hentry).
    { apply Forall_cons. split; [|apply Forall_nil_2].
      intros attr Hin.
      repeat (apply elem_of_cons in Hin as [->|Hin]; [done|]).
      by apply elem_of_nil in Hin. }
    destruct (Hentry [] [] datastore2 eq_refl (not_elem_of_nil _)) as (entry & Hlook & Hattrs).
    exists facts, entry. split; [exact Hfacts|]. split; [exact Hlook|].
    split; [exact (Hattrs "freeSpace")|].
    split; [exact (Hattrs "maxVirtualDiskCapacity")|].
    split; [exact (Hattrs "url")|].
    split; [exact (Hattrs "timestamp")|exact (Hattrs "name")].
  - destruct (datastore_facts_entry (fun size => FList [size; FStr "B"]) host_facts)
      as [_ Hunset].
    apply Hunset. apply Exists_cons_hd. exists "maxFileSize".
    split; [right; by left|reflexivity].
Defined.

(** X21: a mounted volume that no later mount shares its name with has an
    entry under its name with the capacity in human-readable form, and the
    entry carries the reason of inaccessibility exactly when the volume is
    not reported accessible (an unset flag counts as not accessible). *)
Theorem mount_facts_inaccessible_reason (bytes_to_human : fact -> fact) (h : HostSystem)
    (before after : list MountInfo.t) (m : MountInfo.t) :
  mountInfo (storageSystem h) = (before ++ m :: after)%list ->
  MountInfo.name (MountInfo.volume m)
  ∉ map (fun m => MountInfo.name (MountInfo.volume m)) after ->
  exists mounts entry,
    get_storage_facts bytes_to_human h !! "mountinfo" = Some (FDict mounts) /\
    mounts !! MountInfo.name (MountInfo.volume m) = Some (FDict entry) /\
    entry !! "capacity"
    = Some (bytes_to_human (MountInfo.capacity (MountInfo.volume m))) /\
    entry !! "accessible"
    = Some (of_bool_option (MountInfo.accessible (MountInfo.mountInfo m))) /\
    entry !! "inaccessibleReason"
    = if truthy (MountInfo.accessible (MountInfo.mountInfo m)) then None
      else Some (MountInfo.inaccessibleReason (MountInfo.mountInfo m)).
Proof.
  intros Hlist Hlast. do 2 eexists. split; [reflexivity|]. split.
  - rewrite Hlist.
    apply (collect_last (fun m => MountInfo.name (MountInfo.volume m))
             (fun m => FDict (mount_entry bytes_to_human m))).
    exact Hlast.
  - unfold mount_entry.
    destruct (truthy (MountInfo.accessible (MountInfo.mountInfo m))); simpl.
    + by repeat split.
    + by repeat split.
Qed.

Lemma mount_facts_inaccessible_reason_witness :
  exists mounts local nfs,
    get_storage_facts (fun size => size) host_mounts !! "mountinfo" = Some (FDict mounts) /\
    mounts !! "datastore1" = Some (FDict local) /\
    local !! "inaccessibleReason" = None /\
    mounts !! "nfs-backup" = Some (FDict nfs) /\
    nfs !! "inaccessibleReason" = Some (FStr "AllPathsDown_Start").
Proof.
  destruct (mount_facts_inaccessible_reason (fun size => size) host_mounts [] [mount_nfs]
              mount_local eq_refl) as (mounts & local & Hm & Hlocal & _ & _ & Hreason).
  { apply not_elem_of_cons. split; [done|apply not_elem_of_nil]. }
  destruct (mount_facts_inaccessible_reason (fun size => size) host_mounts [mount_local] []
              mount_nfs eq_refl) as (mounts' & nfs & Hm' & Hnfs & _ & _ & Hreason').
  { apply not_elem_of_nil. }
  rewrite Hm in Hm'. injection Hm' as <-.
  exists mounts, local, nfs.
  split; [exact Hm|]. split; [exact Hlocal|]. split; [exact Hreason|].
  split; [exact Hnfs|exact Hreason'].
Defined.

(** X22: when several physical or virtual NICs of the list share a device
    name, the entry under that name is that of the last of them (on a host
    whose virtual NICs all have an IP configuration, where the routine
    returns). *)
Theorem network_facts_last_nic_wins (h : HostSystem) :
  Forall (fun nic => is_Some (VirtualNic.ip (VirtualNic.spec nic))) (vnic (networkInfo h)) ->
  exists net pnics vnics,
    get_network_facts h = inr net /\
    net !! "pnics" = Some (FDict pnics) /\
    net !! "vnics" = Some (FDict vnics) /\
    (forall before after nic,
       pnic (networkInfo h) = (before ++ nic :: after)%list ->
       PhysicalNic.device nic ∉ map PhysicalNic.device after ->
       pnics !! PhysicalNic.device nic = Some (FDict (pnic_entry nic))) /\
    (forall before after nic,
       vnic (networkInfo h) = (before ++ nic :: after)%list ->
       VirtualNic.device nic ∉ map VirtualNic.device after ->
       exists entry,
         vnic_entry nic = inr entry /\
         vnics !! VirtualNic.device nic = Some (FDict entry)).
Proof.
  intros Hip. destruct (network_facts_shape h Hip) as (vnics & Hvnics & Hnet).
  do 3 eexists. split; [exact Hnet|]. split; [reflexivity|]. split; [reflexivity|].
  split.
  - intros before after nic -> Hlast.
    by apply (collect_last PhysicalNic.device (fun nic => FDict (pnic_entry nic))).
  - intros before after nic Hlist Hlast. rewrite Hlist in Hvnics.
    destruct (collect_from_last _ _ _ _ _ _ _ Hvnics Hlast) as (v & Hv & Hlook).
    destruct (vnic_entry nic) as [e|entry]; [done|].
    injection Hv as <-. by exists entry.
Qed.

Lemma network_facts_last_nic_wins_witness :
  exists net pnics entry,
    get_network_facts host_mounts = inr net /\
    net !! "pnics" = Some (FDict pnics) /\
    pnics !! "vmnic1" = Some (FDict entry) /\
    entry !! "speed" = Some (FInt 100).
Proof.
  destruct (network_facts_last_nic_wins host_mounts)
    as (net & pnics & vnics & Hnet & Hp & _ & Hlast & _).
  { apply Forall_cons. split; [by eexists|].
    apply Forall_cons. split; [by eexists|]. apply Forall_nil_2. }
  exists net, pnics, (pnic_entry vmnic1_up).
  split; [exact Hnet|]. split; [exact Hp|]. split.
  - apply (Hlast [vmnic1; vmnic0] [] vmnic1_up eq_refl). apply not_elem_of_nil.
  - reflexivity.
Defined.

(** X23: the network category reports exactly the objects of the host: the
    keys of each of its five dictionaries are the device names (or keys) of
    the corresponding list, no more and no fewer (on a host whose virtual
    NICs all have an IP configuration, where the routine returns). *)
Theorem network_facts_keys (h : HostSystem) :
  Forall (fun nic => is_Some (VirtualNic.ip (VirtualNic.spec nic))) (vnic (networkInfo h)) ->
  exists pnics vnics portgroups vswitches proxySwitches,
    get_network_facts h
    = inr {[ "pnics" := FDict pnics; "vnics" := FDict vnics;
             "portgroups" := FDict portgroups; "vswitch" := FDict vswitches;
             "proxySwitch" := FDict proxySwitches ]} /\
    dom pnics = list_to_set (map PhysicalNic.device (pnic (networkInfo h))) /\
    dom vnics = list_to_set (map VirtualNic.device (vnic (networkInfo h))) /\
    dom portgroups = list_to_set (map PortGroup.key (portgroup (networkInfo h))) /\
    dom vswitches = list_to_set (map Keyed.key (vswitch (networkInfo h))) /\
    dom proxySwitches = list_to_set (map Keyed.key (proxySwitch (networkInfo h))).
Proof.
  intros Hip. destruct (network_facts_shape h Hip) as (vnics & Hvnics & Hnet).
  do 5 eexists. split; [exact Hnet|].
  rewrite !collect_dom, (collect_from_dom _ _ _ _ _ Hvnics), dom_empty_L.
  by rewrite (right_id_L ∅ (∪)).
Qed.

Lemma network_facts_keys_witness :
  exists pnics vnics portgroups vswitches proxySwitches,
    get_network_facts host_mounts
    = inr {[ "pnics" := FDict pnics; "vnics" := FDict vnics;
             "portgroups" := FDict portgroups; "vswitch" := FDict vswitches;
             "proxySwitch" := FDict proxySwitches ]} /\
    dom pnics = list_to_set ["vmnic1"; "vmnic0"; "vmnic1"] /\
    dom vnics = list_to_set ["vmk0"; "vmk1"] /\
    dom portgroups = list_to_set [] /\
    dom vswitches = list_to_set [] /\
    dom proxySwitches = list_to_set [].
Proof.
  apply (network_facts_keys host_mounts).
  apply Forall_cons. split; [by eexists|].
  apply Forall_cons. split; [by eexists|]. apply Forall_nil_2.
Defined.

Lemma get_facts_from_returns (bytes_to_human : fact -> fact) (h : HostSystem)
    (types : list string) (facts : dict) :
  Forall (fun t => exists d, get_type_facts bytes_to_human h t = Some (inr d)) types ->
  exists result,
    get_facts_from bytes_to_human h types facts = inr result /\
    dom result = list_to_set types ∪ dom facts /\
    forall t, t ∈ types ->
      exists d, get_type_facts bytes_to_human h t = Some (inr d) /\
                result !! t = Some (FDict d).
Proof.
  revert facts. induction types as [|t types IH]; intros facts Hsup.
  - exists facts. split; [done|]. split; [simpl; by rewrite (left_id_L ∅ (∪))|].
    intros t Ht. by apply elem_of_nil in Ht.
  - apply Forall_cons in Hsup as [[d Hd] Hsup]. simpl. rewrite Hd.
    destruct (IH (<[t := FDict d]> facts) Hsup) as (result & Hrun & Hdom & Hall).
    exists result. split; [exact Hrun|]. split.
    + rewrite Hdom, dom_insert_L. simpl.
      by rewrite (assoc_L (∪)), (comm_L (∪) _ {[t]}).
    + intros t' Ht'. destruct (decide (t' ∈ types)) as [Hin|Hout]; [by apply Hall|].
      apply elem_of_cons in Ht' as [->|Ht']; [|done].
      exists d. split; [exact Hd|].
      assert (Hkeep : forall types facts result,
                 get_facts_from bytes_to_human h types facts = inr result ->
                 t ∉ types -> result !! t = facts !! t).
      { clear. intros types. induction types as [|u types IH]; intros facts result.
        - by intros [= <-].
        - simpl. destruct (get_type_facts bytes_to_human h u) as [[e|du]|]; [done| |done].
          intros Hrun Hout. rewrite (IH _ _ Hrun).
          + apply lookup_insert_ne. intros ->. apply Hout. by left.
          + intros Hin. apply Hout. by right. }
      rewrite (Hkeep _ _ _ Hrun Hout). apply lookup_insert_eq.
Qed.

Lemma get_facts_from_raises (bytes_to_human : fact -> fact) (h : HostSystem)
    (before after : list string) (t : string) (e : exn) (facts : dict) :
  Forall (fun t => exists d, get_type_facts bytes_to_human h t = Some (inr d)) before ->
  get_type_facts bytes_to_human h t = Some (inl e) ->
  get_facts_from bytes_to_human h (before ++ t :: after)%list facts = inl e.
Proof.
  revert facts. induction before as [|u before IH]; intros facts Hbefore Ht; simpl.
  - by rewrite Ht.
  - apply Forall_cons in Hbefore as [[d Hd] Hbefore]. rewrite Hd. by apply IH.
Qed.

(** X24: when every requested category's routine returns, collecting the
    list yields a document whose keys are exactly the requested categories,
    each holding what its routine returned; when a routine raises, the
    collection ends there with that exception and no document.  A run for
    [all] on a host whose datastore and network routines return reports the
    five categories and no key [all], and reports no change. *)
Theorem facts_categories_as_requested (bytes_to_human : fact -> fact) (h : HostSystem)
    (types : list string) :
  (Forall (fun t => exists d, get_type_facts bytes_to_human h t = Some (inr d)) types ->
   exists facts,
     get_facts bytes_to_human h types = inr facts /\
     dom facts = list_to_set types /\
     forall t, t ∈ types ->
       exists d, get_type_facts bytes_to_human h t = Some (inr d) /\
                 facts !! t = Some (FDict d)) /\
  (forall before after t e,
     types = (before ++ t :: after)%list ->
     Forall (fun t => exists d, get_type_facts bytes_to_human h t = Some (inr d)) before ->
     get_type_facts bytes_to_human h t = Some (inl e) ->
     get_facts bytes_to_human h types = inl e) /\
  (forall datastores net,
     get_datastore_facts bytes_to_human h = inr datastores ->
     get_network_facts h = inr net ->
     main bytes_to_human "all" h
     = exit_json_facts false
         (<["system" := FDict (get_system_facts h)]>
            (<["datastore" := FDict datastores]>
               (<["storage" := FDict (get_storage_facts bytes_to_human h)]>
                  (<["network" := FDict net]>
                     (<["hardware" := FDict (get_hardware_facts bytes_to_human h)]> ∅)))))).
Proof.
  split; [|split].
  - intros Hret.
    destruct (get_facts_from_returns bytes_to_human h types ∅ Hret)
      as (facts & Hrun & Hdom & Hall).
    exists facts. split; [exact Hrun|]. split; [|exact Hall].
    rewrite Hdom, dom_empty_L. apply (right_id_L ∅ (∪)).
  - intros before after t e -> Hbefore Ht. by apply get_facts_from_raises.
  - intros datastores net Hds Hnet.
    unfold main, get_facts. simpl. by rewrite Hnet, Hds.
Qed.

Lemma facts_categories_as_requested_witness :
  (exists facts,
     get_facts (fun size => size) host_facts ["network"; "system"] = inr facts /\
     dom facts = list_to_set ["network"; "system"]) /\
  get_facts (fun size => size) host_facts ["system"; "datastore"; "network"]
  = inl (Exception "TypeError" "float() argument must be a string or a number") /\
  exists facts,
    main (fun size => size) "all" host_datastore2 = exit_json_facts false facts /\
    dom facts = list_to_set ["hardware"; "network"; "storage"; "datastore"; "system"].
Proof.
  split; [|split].
  - destruct (facts_categories_as_requested (fun size => size) host_facts
                ["network"; "system"]) as [Hret _].
    destruct Hret as (facts & Hrun & Hdom & _).
    + apply Forall_cons. split; [by eexists|].
      apply Forall_cons. split; [by eexists|apply Forall_nil_2].
    + by exists facts.
  - destruct (facts_categories_as_requested (fun size => size) host_facts
                ["system"; "datastore"; "network"]) as (_ & Hraise & _).
    apply (Hraise ["system"] ["network"] "datastore"); [reflexivity| |reflexivity].
    apply Forall_cons. split; [by eexists|apply Forall_nil_2].
  - destruct (facts_categories_as_requested (fun size => size) host_datastore2 [])
      as (_ & _ & Hall).
    eexists. split; [by apply Hall|].
    rewrite !dom_insert_L, dom_empty_L. by vm_compute.
Defined.

End MoreFacts.
